(** * runs-on-cache: the save / restore pipelines of [src/custom/cache.ts]

    A shallow embedding of the TypeScript module [src/custom/cache.ts]:
    the two validators, the archive-mode and sync-mode restore pipelines and
    the archive-mode and sync-mode save pipelines, followed by the theorems
    that settle the specification's claims about them.

    Conventions of the embedding.
    - A JavaScript string is a Rocq [string]; one character stands for one
      UTF-16 code unit (so [String.length] is the [.length] of the source),
      restricted to the code units below 256.
    - A thrown value is an [Error] object: the catch blocks of the source
      cast it with [error as Error] and read its [name] and [message].
    - [async] / [await] is sequential here: every [await] of the source
      blocks the pipeline until the awaited call settles.
    - The collaborators the module imports (the remote cache client
      [./backend], [@actions/cache]'s utilities and tar codec,
      [child_process.execSync], [../utils/actionUtils], [path], [process])
      are fields of an environment record [Env]; every call to one of them
      is recorded, with its arguments, in a chronological trace. *)

From Stdlib Require Import String Ascii List ZArith Bool Arith Lia DecimalString.
Import ListNotations.
Local Open Scope list_scope.
Local Open Scope string_scope.

(** ** JavaScript values used by the module *)

Module JS.

(** The prototype an error object was built from.  [ClsForeign] covers the
    error classes of the collaborators (HTTP client errors, the toolkit's
    own error classes, ...). *)
Inductive ErrorClass : Type :=
| ClsError
| ClsValidationError
| ClsReserveCacheError
| ClsForeign (constructorName : string).

(** An [Error] object: its prototype and its two own properties. *)
Record Error : Type := mkError
  { err_class : ErrorClass;
    name : string;
    message : string }.

(** [new Error(message)] *)
Definition new_Error (msg : string) : Error :=
  {| err_class := ClsError; name := "Error"; message := msg |}.

(** Truthiness of a string: every string but the empty one. *)
Definition truthy (s : string) : bool :=
  match s with
  | EmptyString => false
  | String _ _ => true
  end.

(** [v || d] on a possibly undefined string. *)
Definition or_else (v : option string) (d : string) : string :=
  match v with
  | Some s => if truthy s then s else d
  | None => d
  end.

(** A parameter with a default value: the default replaces [undefined]
    only. *)
Definition default_param {A : Type} (d : A) (v : option A) : A :=
  match v with
  | Some a => a
  | None => d
  end.

Definition dquote : string := String (ascii_of_nat 34) EmptyString.

(** [Array.prototype.join] on an array of strings. *)
Fixpoint join (sep : string) (l : list string) : string :=
  match l with
  | [] => ""
  | [x] => x
  | x :: rest => x ++ sep ++ join sep rest
  end.

Definition hex_digit (n : nat) : string :=
  String.substring n 1 "0123456789abcdef".

(** The escape of one code unit inside a JSON string literal. *)
Definition json_escape (c : ascii) : string :=
  let n := nat_of_ascii c in
  if Nat.eqb n 34 then "\" ++ dquote
  else if Nat.eqb n 92 then "\\"
  else if Nat.eqb n 8 then "\b"
  else if Nat.eqb n 12 then "\f"
  else if Nat.eqb n 10 then "\n"
  else if Nat.eqb n 13 then "\r"
  else if Nat.eqb n 9 then "\t"
  else if Nat.ltb n 32 then "\u00" ++ hex_digit (n / 16) ++ hex_digit (n mod 16)
  else String c EmptyString.

Fixpoint json_body (s : string) : string :=
  match s with
  | EmptyString => ""
  | String c rest => json_escape c ++ json_body rest
  end.

Definition json_string (s : string) : string :=
  dquote ++ json_body s ++ dquote.

(** [JSON.stringify] on an array of strings. *)
Definition JSON_stringify (l : list string) : string :=
  "[" ++ join "," (map json_string l) ++ "]".

(** [String(n)] for an integer [n] (below 10^21 in absolute value, where
    JavaScript prints all the digits). *)
Definition Number_toString (n : Z) : string :=
  NilZero.string_of_int (Z.to_int n).

(** [Math.round(n / (1024 * 1024))] for an integer [n]: the division by a
    power of two is exact, and [Math.round] rounds halves upwards. *)
Definition round_MiB (n : Z) : Z :=
  ((n + 524288) / 1048576)%Z.

(** [Error.prototype.toString], which a template literal applies to an
    interpolated error. *)
Definition Error_toString (e : Error) : string :=
  match name e, message e with
  | EmptyString, msg => msg
  | nm, EmptyString => nm
  | nm, msg => nm ++ ": " ++ msg
  end.

End JS.

(** ** The two error classes of the module *)

(** [class ValidationError extends Error]: the constructor sets [name]. *)
Definition ValidationError (msg : string) : JS.Error :=
  {| JS.err_class := JS.ClsValidationError;
     JS.name := "ValidationError";
     JS.message := msg |}.

(** [class ReserveCacheError extends Error] *)
Definition ReserveCacheError (msg : string) : JS.Error :=
  {| JS.err_class := JS.ClsReserveCacheError;
     JS.name := "ReserveCacheError";
     JS.message := msg |}.

(** [ValidationError.name] and [ReserveCacheError.name]: the [name] of a
    class object is the identifier of its declaration. *)
Definition ValidationError_name : string := "ValidationError".
Definition ReserveCacheError_name : string := "ReserveCacheError".

(** ** Data exchanged with the collaborators *)

(** [CompressionMethod] is a string enumeration; [getCompressionMethod] of
    [../utils/actionUtils] may also answer the custom program's name. *)
Definition CompressionMethod : Type := string.

(** The record the remote lookup answers; both fields are optional. *)
Record ArtifactCacheEntry : Type := mkEntry
  { cacheKey : option string;
    archiveLocation : option string }.

(** [DownloadOptions]: only [lookupOnly] is read by this module, the record
    is otherwise handed to the download call as it is. *)
Record DownloadOptions : Type := mkDownloadOptions
  { lookupOnly : option bool;
    timeoutInMs : option Z }.

Record UploadOptions : Type := mkUploadOptions
  { uploadConcurrency : option Z;
    uploadChunkSize : option Z }.

(** [cacheEntry?.archiveLocation], as a condition: the location when the
    entry exists and its location is a non-empty string. *)
Definition truthy_archiveLocation (cacheEntry : option ArtifactCacheEntry)
  : option string :=
  match cacheEntry with
  | Some entry =>
      match archiveLocation entry with
      | Some loc => if JS.truthy loc then Some loc else None
      | None => None
      end
  | None => None
  end.

(** [options?.lookupOnly], as a condition. *)
Definition truthy_lookupOnly (options : option DownloadOptions) : bool :=
  match options with
  | Some o => match lookupOnly o with Some b => b | None => false end
  | None => false
  end.

(** ** Calls, traces and the pipeline monad *)

Inductive LogLevel : Type := Debug | Info | Warning.

(** One entry of the trace: a logging call or a call to a collaborator,
    with the arguments it received. *)
Inductive Event : Type :=
| EvLog (level : LogLevel) (msg : string)
| EvGetCacheEntry (keys paths : list string) (method : CompressionMethod)
    (enableCrossOsArchive : bool)
| EvGetCacheEntrySync (primaryKey : string) (paths : list string)
| EvDownloadCache (location archivePath : string)
    (options : option DownloadOptions)
| EvDownloadCacheSync (location : string) (paths : list string)
| EvBackendSaveCache (key : string) (paths : list string)
    (archivePath : string) (method : CompressionMethod)
    (enableCrossOsArchive : bool) (cacheSize : Z)
| EvBackendSaveCacheSync (key : string) (paths : list string)
| EvResolvePaths (paths : list string)
| EvCreateTempDirectory
| EvGetArchiveFileSizeInBytes (archivePath : string)
| EvUnlinkFile (path : string)
| EvGetTarPath
| EvListTar (archivePath : string) (method : CompressionMethod)
| EvExtractTar (archivePath : string) (method : CompressionMethod)
| EvCreateTar (archiveFolder : string) (paths : list string)
    (method : CompressionMethod)
| EvExecSync (command : string) (inheritStdio : bool).

(** What a call answers: a value, or a thrown error. *)
Inductive Completion (A : Type) : Type :=
| Normal (a : A)
| Throw (e : JS.Error).
Arguments Normal {A} a.
Arguments Throw {A} e.

(** The state a pipeline threads: the trace so far, and the local variable
    [archivePath] of [restoreCache], which its [try] block assigns and its
    [finally] block reads. *)
Record State : Type := mkState
  { trace : list Event;
    var_archivePath : string }.

Definition init : State := {| trace := []; var_archivePath := "" |}.

Definition M (A : Type) : Type := State -> Completion A * State.

Definition ret {A : Type} (a : A) : M A := fun s => (Normal a, s).

Definition throw {A : Type} (e : JS.Error) : M A := fun s => (Throw e, s).

Definition bind {A B : Type} (m : M A) (k : A -> M B) : M B :=
  fun s =>
    match m s with
    | (Normal a, s') => k a s'
    | (Throw e, s') => (Throw e, s')
    end.

Declare Scope pipeline_scope.
Delimit Scope pipeline_scope with pipeline.
Notation "x <- m ;; k" := (bind m (fun x => k))
  (at level 61, m at next level, right associativity) : pipeline_scope.
Notation "m ;; k" := (bind m (fun _ => k))
  (at level 61, right associativity) : pipeline_scope.
Local Open Scope pipeline_scope.

Definition record_event (ev : Event) (s : State) : State :=
  {| trace := (trace s ++ [ev])%list; var_archivePath := var_archivePath s |}.

(** A call to a collaborator: it is recorded, then it settles. *)
Definition call {A : Type} (ev : Event) (answer : Completion A) : M A :=
  fun s => (answer, record_event ev s).

Definition log (level : LogLevel) (msg : string) : M unit :=
  call (EvLog level msg) (Normal tt).

Definition debug : string -> M unit := log Debug.
Definition info : string -> M unit := log Info.
Definition warning : string -> M unit := log Warning.

Definition assign_archivePath (p : string) : M unit :=
  fun s => (Normal tt, {| trace := trace s; var_archivePath := p |}).

Definition read_archivePath : M string :=
  fun s => (Normal (var_archivePath s), s).

(** [try { body } catch (error) { handler error }] *)
Definition try_catch {A : Type} (body : M A) (handler : JS.Error -> M A)
  : M A :=
  fun s =>
    match body s with
    | (Normal a, s') => (Normal a, s')
    | (Throw e, s') => handler e s'
    end.

(** [try { body } finally { finalizer }]: the finalizer runs on every exit of
    the body; the body's completion stands unless the finalizer throws. *)
Definition try_finally {A : Type} (body : M A) (finalizer : M unit) : M A :=
  fun s =>
    match body s with
    | (c, s') =>
        match finalizer s' with
        | (Normal _, s'') => (c, s'')
        | (Throw e, s'') => (Throw e, s'')
        end
    end.

(** [for (const x of l) { f x }] *)
Fixpoint for_of {A : Type} (l : list A) (f : A -> M unit) : M unit :=
  match l with
  | [] => ret tt
  | x :: rest => f x ;; for_of rest f
  end.

(** ** The environment: platform, configuration and collaborators *)

(** Every collaborator answers as a function of the arguments of the call.
    A pipeline calls each of them at most once, so nothing is lost by not
    letting an answer depend on earlier calls. *)
Record Env : Type := mkEnv
  { (* process *)
    platform : string;
    env_GITHUB_WORKSPACE : option string;
    cwd : string;
    (* @actions/core *)
    isDebug : bool;
    (* path *)
    path_join : string -> string -> string;
    (* ../utils/actionUtils *)
    getCompressionMethod : string -> CompressionMethod;
    getCacheFileName : CompressionMethod -> string;
    (* @actions/cache/lib/internal/cacheUtils *)
    createTempDirectory : Completion string;
    resolvePaths : list string -> Completion (list string);
    getArchiveFileSizeInBytes : string -> Completion Z;
    unlinkFile : string -> Completion unit;
    (* @actions/cache/lib/internal/tar *)
    getTarPath : Completion string;
    listTar : string -> CompressionMethod -> Completion unit;
    extractTar : string -> CompressionMethod -> Completion unit;
    createTar : string -> list string -> CompressionMethod -> Completion unit;
    (* child_process; the answer is the output buffer, if any *)
    execSync : string -> bool -> Completion (option string);
    (* ./backend *)
    backend_getCacheEntry :
      list string -> list string -> CompressionMethod -> bool ->
      Completion (option ArtifactCacheEntry);
    backend_getCacheEntrySync :
      string -> list string -> Completion (option ArtifactCacheEntry);
    backend_downloadCache :
      string -> string -> option DownloadOptions -> Completion unit;
    backend_downloadCacheSync : string -> list string -> Completion unit;
    backend_saveCache :
      string -> list string -> string -> CompressionMethod -> bool -> Z ->
      Completion unit;
    backend_saveCacheSync : string -> list string -> Completion unit }.

(** ** The module *)

(** The regular expression [/^[^,]*$/], tested on a key: without the
    multiline flag it accepts exactly the strings with no comma. *)
Fixpoint regex_no_comma_test (key : string) : bool :=
  match key with
  | EmptyString => true
  | String c rest => negb (Ascii.eqb c ",") && regex_no_comma_test rest
  end.

(** [!paths || paths.length === 0] *)
Definition paths_missing (paths : option (list string)) : bool :=
  match paths with
  | None => true
  | Some l => Nat.eqb (List.length l) 0
  end.

Definition checkPaths (paths : option (list string)) : M unit :=
  if paths_missing paths then
    throw (ValidationError
      "Path Validation Error: At least one directory or file path is required")
  else ret tt.

Definition checkKey (key : string) : M unit :=
  if Nat.ltb 512 (String.length key) then
    throw (ValidationError
      ("Key Validation Error: " ++ key
        ++ " cannot be larger than 512 characters."))
  else if negb (regex_no_comma_test key) then
    throw (ValidationError
      ("Key Validation Error: " ++ key ++ " cannot contain commas."))
  else ret tt.

(** [isFeatureAvailable]: [!!process.env["ACTIONS_CACHE_URL"]], as a function
    of the value of that variable. *)
Definition isFeatureAvailable (env_ACTIONS_CACHE_URL : option string)
  : bool :=
  match env_ACTIONS_CACHE_URL with
  | Some url => JS.truthy url
  | None => false
  end.

(** The array a parameter of type [string[]] holds once [checkPaths] has
    returned. *)
Definition array_of (paths : option (list string)) : list string :=
  match paths with
  | Some l => l
  | None => []
  end.

Definition toTarPath (p : string) : string :=
  string_of_list_ascii
    (map (fun c => if Ascii.eqb c "\" then "/"%char else c)
         (list_ascii_of_string p)).

Definition quoted (s : string) : string := JS.dquote ++ s ++ JS.dquote.

Section Pipelines.

Variable env : Env.

(** [process.env["GITHUB_WORKSPACE"] || process.cwd()] *)
Definition baseDir : string :=
  JS.or_else (env_GITHUB_WORKSPACE env) (cwd env).

(** The innermost [try { unlinkFile } catch { debug }] of the [finally]
    blocks. *)
Definition delete_archive (archivePath : string) : M unit :=
  try_catch
    (call (EvUnlinkFile archivePath) (unlinkFile env archivePath))
    (fun error =>
       debug ("Failed to delete archive: " ++ JS.Error_toString error)).

(** [if (output && output.length > 0) { log(output.toString()) }] *)
Definition log_output (level : LogLevel) (output : option string)
  : M unit :=
  match output with
  | Some out => if JS.truthy out then log level out else ret tt
  | None => ret tt
  end.

(** *** restoreCache *)

(** The three-way extraction of [restoreCache]. *)
Definition restore_extract (archivePath : string)
    (compressionMethod : CompressionMethod) (customCompression : string)
  : M unit :=
  if JS.truthy customCompression
     && negb (String.eqb (platform env) "win32") then
    let compressionArgs :=
      if String.eqb customCompression "none" then ""
      else "--use-compress-program=" ++ customCompression in
    let command :=
      "tar -xf " ++ archivePath ++ " -P -C " ++ baseDir ++ " "
        ++ compressionArgs in
    info ("Extracting " ++ archivePath ++ " to " ++ baseDir) ;;
    output <- call (EvExecSync command false) (execSync env command false) ;;
    log_output Info output
  else if JS.truthy customCompression
          && String.eqb (platform env) "win32" then
    tarPath <- call EvGetTarPath (getTarPath env) ;;
    let lz4Path := "lz4.exe" in
    let args :=
      ((if negb (String.eqb customCompression "none")
        then [("--use-compress-program=" ++ quoted lz4Path)%string]
        else [])
       ++ ["-xf"; quoted (toTarPath archivePath)]
       ++ ["-P"]
       ++ ["-C"; quoted (toTarPath baseDir)])%list in
    let command := quoted tarPath ++ " " ++ JS.join " " args in
    debug ("Executing command: " ++ command) ;;
    output <- call (EvExecSync command true) (execSync env command true) ;;
    log_output Debug output
  else
    call (EvExtractTar archivePath compressionMethod)
         (extractTar env archivePath compressionMethod).

(** The body of the [try] block of [restoreCache].  Every normal exit of
    the block is a [return]; its value is the value the function
    returns ([None] is [undefined]). *)
Definition restoreCache_try (keys paths : list string)
    (options : option DownloadOptions) (enableCrossOsArchive : bool)
    (customCompression : string) (compressionMethod : CompressionMethod)
  : M (option string) :=
  cacheEntry <-
    call (EvGetCacheEntry keys paths compressionMethod enableCrossOsArchive)
         (backend_getCacheEntry env keys paths compressionMethod
            enableCrossOsArchive) ;;
  match truthy_archiveLocation cacheEntry with
  | None => ret None
  | Some location =>
      if truthy_lookupOnly options then
        info "Lookup only - skipping download" ;;
        ret (match cacheEntry with Some e => cacheKey e | None => None end)
      else
        tempDirectory <- call EvCreateTempDirectory
                              (createTempDirectory env) ;;
        let archivePath :=
          path_join env tempDirectory
            (getCacheFileName env compressionMethod) in
        assign_archivePath archivePath ;;
        debug ("Archive Path: " ++ archivePath) ;;
        call (EvDownloadCache location archivePath options)
             (backend_downloadCache env location archivePath options) ;;
        (if isDebug env then
           if JS.truthy customCompression then
             debug "ListTar unavailable with custom compression method"
           else
             call (EvListTar archivePath compressionMethod)
                  (listTar env archivePath compressionMethod)
         else ret tt) ;;
        archiveFileSize <-
          call (EvGetArchiveFileSizeInBytes archivePath)
               (getArchiveFileSizeInBytes env archivePath) ;;
        info ("Cache Size: ~"
                ++ JS.Number_toString (JS.round_MiB archiveFileSize)
                ++ " MB (" ++ JS.Number_toString archiveFileSize
                ++ " B)") ;;
        restore_extract archivePath compressionMethod customCompression ;;
        info "Cache restored successfully" ;;
        ret (match cacheEntry with Some e => cacheKey e | None => None end)
  end.

(** The [catch] block shared by [restoreCache] and [restoreCacheSync];
    when it does not re-throw, control reaches the final
    [return undefined]. *)
Definition restore_catch (error : JS.Error) : M (option string) :=
  if String.eqb (JS.name error) ValidationError_name then throw error
  else
    warning ("Failed to restore: " ++ JS.message error) ;;
    ret None.

(** [try { ... } catch { ... } finally { ... }] of [restoreCache]. *)
Definition restoreCache_guarded (keys paths : list string)
    (options : option DownloadOptions) (enableCrossOsArchive : bool)
    (customCompression : string) (compressionMethod : CompressionMethod)
  : M (option string) :=
  try_finally
    (try_catch
       (restoreCache_try keys paths options enableCrossOsArchive
          customCompression compressionMethod)
       restore_catch)
    (archivePath <- read_archivePath ;; delete_archive archivePath).

Definition restoreCache (paths : option (list string)) (primaryKey : string)
    (restoreKeys : option (list string)) (options : option DownloadOptions)
    (enableCrossOsArchive : option bool) (customCompression : option string)
  : M (option string) :=
  let enableCrossOsArchive := JS.default_param false enableCrossOsArchive in
  let customCompression := JS.default_param "none" customCompression in
  checkPaths paths ;;
  let restoreKeys := JS.default_param [] restoreKeys in
  let keys := primaryKey :: restoreKeys in
  debug "Resolved Keys:" ;;
  debug (JS.JSON_stringify keys) ;;
  (if Nat.ltb 10 (List.length keys) then
     throw (ValidationError
       "Key Validation Error: Keys are limited to a maximum of 10.")
   else ret tt) ;;
  for_of keys checkKey ;;
  let compressionMethod := getCompressionMethod env customCompression in
  assign_archivePath "" ;;
  restoreCache_guarded keys (array_of paths) options enableCrossOsArchive
    customCompression compressionMethod.

(** *** restoreCacheSync *)

Definition restoreCacheSync_try (paths : list string) (primaryKey : string)
    (options : option DownloadOptions) : M (option string) :=
  cacheEntry <-
    call (EvGetCacheEntrySync primaryKey paths)
         (backend_getCacheEntrySync env primaryKey paths) ;;
  match truthy_archiveLocation cacheEntry with
  | None => ret None
  | Some location =>
      if truthy_lookupOnly options then
        info "Lookup only - skipping download" ;;
        ret (match cacheEntry with Some e => cacheKey e | None => None end)
      else
        call (EvDownloadCacheSync location paths)
             (backend_downloadCacheSync env location paths) ;;
        info "Cache restored successfully" ;;
        ret (match cacheEntry with Some e => cacheKey e | None => None end)
  end.

Definition restoreCacheSync (paths : option (list string))
    (primaryKey : string) (options : option DownloadOptions)
  : M (option string) :=
  checkPaths paths ;;
  debug "Resolved Keys:" ;;
  checkKey primaryKey ;;
  try_catch (restoreCacheSync_try (array_of paths) primaryKey options)
    restore_catch.

(** *** saveCache *)

(** The three-way archive creation of [saveCache]. *)
Definition save_archive (archiveFolder archivePath : string)
    (cachePaths : list string) (compressionMethod : CompressionMethod)
    (customCompression : string) : M unit :=
  if JS.truthy customCompression
     && negb (String.eqb (platform env) "win32") then
    let compressionArgs :=
      if String.eqb customCompression "none" then ""
      else "--use-compress-program=" ++ customCompression in
    let command :=
      "tar --posix -cf " ++ archivePath ++ " --exclude " ++ archivePath
        ++ " -P -C " ++ baseDir ++ " " ++ JS.join " " cachePaths ++ " "
        ++ compressionArgs in
    output <- call (EvExecSync command false) (execSync env command false) ;;
    log_output Debug output
  else if JS.truthy customCompression
          && String.eqb (platform env) "win32" then
    info "Entering win path" ;;
    tarPath <- call EvGetTarPath (getTarPath env) ;;
    let lz4Path := "lz4.exe" in
    let args :=
      (["--posix"]
       ++ (if negb (String.eqb customCompression "none")
           then [("--use-compress-program=" ++ quoted lz4Path)%string]
           else [])
       ++ ["-cf"; quoted (toTarPath archivePath)]
       ++ ["--exclude"; quoted (toTarPath archivePath)]
       ++ ["-P"]
       ++ ["-C"; quoted (toTarPath baseDir)])%list in
    let quotedCachePaths := map (fun p => quoted (toTarPath p)) cachePaths in
    let command :=
      quoted tarPath ++ " " ++ JS.join " " args ++ " "
        ++ JS.join " " quotedCachePaths in
    info ("Executing command: " ++ command) ;;
    output <- call (EvExecSync command true) (execSync env command true) ;;
    log_output Debug output
  else
    call (EvCreateTar archiveFolder cachePaths compressionMethod)
         (createTar env archiveFolder cachePaths compressionMethod) ;;
    if isDebug env then
      call (EvListTar archivePath compressionMethod)
           (listTar env archivePath compressionMethod)
    else ret tt.

(** The body of the [try] block of [saveCache]; its value is the value it
    assigns to [cacheId]. *)
Definition saveCache_try (paths : list string) (key : string)
    (enableCrossOsArchive : bool) (customCompression : string)
    (compressionMethod : CompressionMethod)
    (cachePaths : list string) (archiveFolder archivePath : string)
  : M Z :=
  save_archive archiveFolder archivePath cachePaths compressionMethod
    customCompression ;;
  archiveFileSize <-
    call (EvGetArchiveFileSizeInBytes archivePath)
         (getArchiveFileSizeInBytes env archivePath) ;;
  info ("File Size: " ++ JS.Number_toString archiveFileSize) ;;
  call (EvBackendSaveCache key paths archivePath compressionMethod
          enableCrossOsArchive archiveFileSize)
       (backend_saveCache env key paths archivePath compressionMethod
          enableCrossOsArchive archiveFileSize) ;;
  ret 1%Z.

(** The [catch] block shared by [saveCache] and [saveCacheSync]; when it
    does not re-throw, [cacheId] keeps the value it had. *)
Definition save_catch (cacheId : Z) (error : JS.Error) : M Z :=
  if String.eqb (JS.name error) ValidationError_name then throw error
  else if String.eqb (JS.name error) ReserveCacheError_name then
    info ("Failed to save: " ++ JS.message error) ;;
    ret cacheId
  else
    warning ("Failed to save: " ++ JS.message error) ;;
    ret cacheId.

(** [try { ... } catch { ... } finally { ... }] of [saveCache], followed by
    its [return cacheId]. *)
Definition saveCache_guarded (cacheId : Z) (paths : list string)
    (key : string) (enableCrossOsArchive : bool)
    (customCompression : string) (compressionMethod : CompressionMethod)
    (cachePaths : list string) (archiveFolder archivePath : string)
  : M Z :=
  try_finally
    (try_catch
       (saveCache_try paths key enableCrossOsArchive customCompression
          compressionMethod cachePaths archiveFolder archivePath)
       (save_catch cacheId))
    (delete_archive archivePath).

Definition no_path_error : JS.Error :=
  JS.new_Error
    "Path Validation Error: Path(s) specified in the action for caching do(es) not exist, hence no cache is being saved.".

Definition saveCache (paths : option (list string)) (key : string)
    (options : option UploadOptions) (enableCrossOsArchive : option bool)
    (customCompression : option string) : M Z :=
  let enableCrossOsArchive := JS.default_param false enableCrossOsArchive in
  let customCompression := JS.default_param "none" customCompression in
  info "Saving Cache via archive." ;;
  checkPaths paths ;;
  checkKey key ;;
  let compressionMethod := getCompressionMethod env customCompression in
  let cacheId := (-1)%Z in
  info (JS.JSON_stringify (array_of paths)) ;;
  cachePaths <- call (EvResolvePaths (array_of paths))
                     (resolvePaths env (array_of paths)) ;;
  info "Cache Paths:" ;;
  info (JS.JSON_stringify cachePaths) ;;
  (if Nat.eqb (List.length cachePaths) 0 then throw no_path_error
   else ret tt) ;;
  archiveFolder <- call EvCreateTempDirectory (createTempDirectory env) ;;
  let archivePath :=
    path_join env archiveFolder (getCacheFileName env compressionMethod) in
  info ("Archive Path: " ++ archivePath) ;;
  saveCache_guarded cacheId (array_of paths) key enableCrossOsArchive
    customCompression compressionMethod cachePaths archiveFolder
    archivePath.

(** *** saveCacheSync *)

Definition saveCacheSync_try (paths : list string) (key : string) : M Z :=
  call (EvBackendSaveCacheSync key paths)
       (backend_saveCacheSync env key paths) ;;
  ret 1%Z.

Definition saveCacheSync (paths : option (list string)) (key : string)
  : M Z :=
  info "Saving Cache via sync." ;;
  checkPaths paths ;;
  checkKey key ;;
  let cacheId := (-1)%Z in
  cachePaths <- call (EvResolvePaths (array_of paths))
                     (resolvePaths env (array_of paths)) ;;
  debug "Cache Paths:" ;;
  debug (JS.JSON_stringify cachePaths) ;;
  (if Nat.eqb (List.length cachePaths) 0 then throw no_path_error
   else ret tt) ;;
  try_catch (saveCacheSync_try (array_of paths) key) (save_catch cacheId).

End Pipelines.

(** * Vocabulary of the statements *)

(** ** Valid inputs, kinds of calls, entry states *)

Definition valid_key (key : string) : bool :=
  Nat.leb (String.length key) 512 && regex_no_comma_test key.

(** The inputs [restoreCache] lets through to its [try] block. *)
Definition restore_input_ok (paths : option (list string))
    (primaryKey : string) (restoreKeys : option (list string)) : bool :=
  let keys := primaryKey :: JS.default_param [] restoreKeys in
  negb (paths_missing paths)
  && Nat.leb (List.length keys) 10
  && forallb valid_key keys.

(** The inputs [restoreCacheSync], [saveCache] and [saveCacheSync] let
    through their two validators. *)
Definition single_key_input_ok (paths : option (list string)) (key : string)
  : bool :=
  negb (paths_missing paths) && valid_key key.

(** The calls that go to the remote cache service. *)
Definition is_network_call (ev : Event) : bool :=
  match ev with
  | EvGetCacheEntry _ _ _ _ | EvGetCacheEntrySync _ _
  | EvDownloadCache _ _ _ | EvDownloadCacheSync _ _
  | EvBackendSaveCache _ _ _ _ _ _ | EvBackendSaveCacheSync _ _ => true
  | _ => false
  end.

(** The logging calls. *)
Definition is_log (ev : Event) : bool :=
  match ev with
  | EvLog _ _ => true
  | _ => false
  end.

(** The calls [saveCache] makes before its [try] block. *)
Definition is_save_prelude (ev : Event) : bool :=
  match ev with
  | EvLog _ _ | EvResolvePaths _ | EvCreateTempDirectory => true
  | _ => false
  end.

(** The state in which [restoreCache] enters its [try] block. *)
Definition restore_entry (keys : list string) (s : State) : State :=
  {| trace := (trace s ++ [EvLog Debug "Resolved Keys:";
                           EvLog Debug (JS.JSON_stringify keys)])%list;
     var_archivePath := "" |}.

(** The state in which [restoreCacheSync] enters its [try] block. *)
Definition restoreSync_entry (s : State) : State :=
  record_event (EvLog Debug "Resolved Keys:") s.

(** The state in which [saveCache] enters its [try] block. *)
Definition save_entry (paths cachePaths : list string) (archivePath : string)
  : State :=
  {| trace := [EvLog Info "Saving Cache via archive.";
               EvLog Info (JS.JSON_stringify paths);
               EvResolvePaths paths;
               EvLog Info "Cache Paths:";
               EvLog Info (JS.JSON_stringify cachePaths);
               EvCreateTempDirectory;
               EvLog Info ("Archive Path: " ++ archivePath)];
     var_archivePath := "" |}.

(** The state in which [saveCacheSync] enters its [try] block. *)
Definition saveSync_entry (paths cachePaths : list string) : State :=
  {| trace := [EvLog Info "Saving Cache via sync.";
               EvResolvePaths paths;
               EvLog Debug "Cache Paths:";
               EvLog Debug (JS.JSON_stringify cachePaths)];
     var_archivePath := "" |}.

(** ** Cleanup *)

(** The environment [env] with another behaviour of [unlinkFile]. *)
Definition with_unlinkFile (env : Env) (u : string -> Completion unit)
  : Env :=
  {| platform := platform env;
     env_GITHUB_WORKSPACE := env_GITHUB_WORKSPACE env;
     cwd := cwd env;
     isDebug := isDebug env;
     path_join := path_join env;
     getCompressionMethod := getCompressionMethod env;
     getCacheFileName := getCacheFileName env;
     createTempDirectory := createTempDirectory env;
     resolvePaths := resolvePaths env;
     getArchiveFileSizeInBytes := getArchiveFileSizeInBytes env;
     unlinkFile := u;
     getTarPath := getTarPath env;
     listTar := listTar env;
     extractTar := extractTar env;
     createTar := createTar env;
     execSync := execSync env;
     backend_getCacheEntry := backend_getCacheEntry env;
     backend_getCacheEntrySync := backend_getCacheEntrySync env;
     backend_downloadCache := backend_downloadCache env;
     backend_downloadCacheSync := backend_downloadCacheSync env;
     backend_saveCache := backend_saveCache env;
     backend_saveCacheSync := backend_saveCacheSync env |}.

(** A trace that ends with the deletion of [archivePath]: the [unlinkFile]
    call, followed by one debug line when that call failed. *)
Definition ends_with_deletion (env : Env) (archivePath : string)
    (t : list Event) : Prop :=
  exists pre,
    (unlinkFile env archivePath = Normal tt
     /\ t = (pre ++ [EvUnlinkFile archivePath])%list)
    \/ (exists e,
          unlinkFile env archivePath = Throw e
          /\ t = (pre ++ [EvUnlinkFile archivePath;
                    EvLog Debug ("Failed to delete archive: "
                                   ++ JS.Error_toString e)])%list).

(** ** Concrete runners *)

Module Example.

(** What [unlinkFile] answers on a path that names no file. *)
Definition enoent : JS.Error :=
  JS.mkError (JS.ClsForeign "SystemError") "Error"
    "ENOENT: no such file or directory, unlink".

(** An error of the HTTP client. *)
Definition network_error : JS.Error :=
  JS.mkError (JS.ClsForeign "HttpClientError") "HttpClientError"
    "connect ETIMEDOUT".

(** An error of a foreign class that carries the name [ValidationError]. *)
Definition foreign_validation_error : JS.Error :=
  JS.mkError (JS.ClsForeign "HttpClientError") "ValidationError"
    "rejected by the service".

(** A remote store that holds one entry, under the key [K2]. *)
Definition lookup_K2 (keys : list string)
  : Completion (option ArtifactCacheEntry) :=
  match find (fun k => String.eqb k "K2") keys with
  | Some k =>
      Normal (Some {| cacheKey := Some k;
                      archiveLocation := Some "https://cache.example/K2" |})
  | None => Normal None
  end.

Definition unlink_existing (p : string) : Completion unit :=
  if JS.truthy p then Normal tt else Throw enoent.

Definition unlink_failing (p : string) : Completion unit := Throw enoent.

(** A runner: its platform, and what the remote store, the file system and
    the path resolver answer. *)
Definition runner (plat : string)
    (lookup : list string -> Completion (option ArtifactCacheEntry))
    (download upload : Completion unit)
    (unlink : string -> Completion unit)
    (resolve : list string -> Completion (list string)) : Env :=
  {| platform := plat;
     env_GITHUB_WORKSPACE := Some "/workspace";
     cwd := "/home/runner";
     isDebug := false;
     path_join := fun a b => a ++ "/" ++ b;
     getCompressionMethod := fun _ => "zstd";
     getCacheFileName := fun _ => "cache.tzst";
     createTempDirectory := Normal "/tmp/cache";
     resolvePaths := resolve;
     getArchiveFileSizeInBytes := fun _ => Normal 10%Z;
     unlinkFile := unlink;
     getTarPath := Normal "tar.exe";
     listTar := fun _ _ => Normal tt;
     extractTar := fun _ _ => Normal tt;
     createTar := fun _ _ _ => Normal tt;
     execSync := fun _ inheritStdio =>
                   Normal (if inheritStdio then None else Some "");
     backend_getCacheEntry := fun keys _ _ _ => lookup keys;
     backend_getCacheEntrySync := fun key _ => lookup [key];
     backend_downloadCache := fun _ _ _ => download;
     backend_downloadCacheSync := fun _ _ => download;
     backend_saveCache := fun _ _ _ _ _ _ => upload;
     backend_saveCacheSync := fun _ _ => upload |}.

Definition linux : Env :=
  runner "linux" lookup_K2 (Normal tt) (Normal tt) unlink_existing
    (fun l => Normal l).

(** The same runner when another save already reserved the key. *)
Definition linux_conflict : Env :=
  runner "linux" lookup_K2 (Normal tt)
    (Throw (ReserveCacheError "Cache already exists")) unlink_existing
    (fun l => Normal l).

(** The same runner when the download fails. *)
Definition linux_offline : Env :=
  runner "linux" lookup_K2 (Throw network_error) (Throw network_error)
    unlink_existing (fun l => Normal l).

(** The same runner when the service throws an error named
    [ValidationError]. *)
Definition linux_foreign : Env :=
  runner "linux" (fun _ => Throw foreign_validation_error)
    (Normal tt) (Throw foreign_validation_error) unlink_existing
    (fun l => Normal l).

(** The same runner when the archive cannot be deleted. *)
Definition linux_readonly : Env :=
  runner "linux" lookup_K2 (Normal tt) (Normal tt) unlink_failing
    (fun l => Normal l).

(** The same runner when none of the paths exists. *)
Definition linux_no_paths : Env :=
  runner "linux" lookup_K2 (Normal tt) (Normal tt) unlink_existing
    (fun _ => Normal []).

Definition lookup_only : option DownloadOptions :=
  Some {| lookupOnly := Some true; timeoutInMs := None |}.

(** A key of exactly 512 characters, none of them a comma. *)
Definition key512 : string := string_of_list_ascii (repeat "k"%char 512).

Definition ten_restore_keys : list string :=
  ["r1"; "r2"; "r3"; "r4"; "r5"; "r6"; "r7"; "r8"; "r9"; "r10"].

Definition is_extractTar (ev : Event) : bool :=
  match ev with EvExtractTar _ _ => true | _ => false end.

Definition is_createTar (ev : Event) : bool :=
  match ev with EvCreateTar _ _ _ => true | _ => false end.

End Example.

(** ** Kinds of calls, for the coverage properties *)

(** The calls only the archive mode makes: local archive handling and the
    archive-mode requests to the remote service. *)
Definition is_archive_call (ev : Event) : bool :=
  match ev with
  | EvCreateTempDirectory | EvGetArchiveFileSizeInBytes _ | EvUnlinkFile _
  | EvGetTarPath | EvListTar _ _ | EvExtractTar _ _ | EvCreateTar _ _ _
  | EvExecSync _ _ | EvGetCacheEntry _ _ _ _ | EvDownloadCache _ _ _
  | EvBackendSaveCache _ _ _ _ _ _ => true
  | _ => false
  end.

(** The calls that unpack or build an archive. *)
Definition is_codec_call (ev : Event) : bool :=
  match ev with
  | EvExtractTar _ _ | EvCreateTar _ _ _ | EvExecSync _ _ => true
  | _ => false
  end.

(** The message of the [ValidationError] of [checkKey] on a key it
    rejects. *)
Definition checkKey_message (key : string) : string :=
  if Nat.ltb 512 (String.length key) then
    "Key Validation Error: " ++ key
      ++ " cannot be larger than 512 characters."
  else "Key Validation Error: " ++ key ++ " cannot contain commas.".

(** ** More concrete runners *)

Module Scenario.

Definition disk_full : JS.Error :=
  JS.mkError (JS.ClsForeign "SystemError") "Error"
    "ENOSPC: no space left on device".

Definition stored_entry : ArtifactCacheEntry :=
  {| cacheKey := Some "build-1";
     archiveLocation := Some "https://cache.example/build-1" |}.

(** A machine: its platform and path separator, and what the file system,
    the path resolver and the remote store answer. *)
Definition machine (plat sep : string) (debugging : bool)
    (tmp : Completion string)
    (resolve : list string -> Completion (list string))
    (lookup : Completion (option ArtifactCacheEntry))
    (download upload : Completion unit) : Env :=
  {| platform := plat;
     env_GITHUB_WORKSPACE := None;
     cwd := if String.eqb plat "win32" then "D:\a\repo" else "/home/runner";
     isDebug := debugging;
     path_join := fun a b => a ++ sep ++ b;
     getCompressionMethod := fun _ => "zstd";
     getCacheFileName := fun _ => "cache.tzst";
     createTempDirectory := tmp;
     resolvePaths := resolve;
     getArchiveFileSizeInBytes := fun _ => Normal 2048%Z;
     unlinkFile := fun p => if JS.truthy p then Normal tt
                            else Throw Example.enoent;
     getTarPath := Normal "C:\Windows\System32\tar.exe";
     listTar := fun _ _ => Normal tt;
     extractTar := fun _ _ => Normal tt;
     createTar := fun _ _ _ => Normal tt;
     execSync := fun _ inheritStdio =>
                   Normal (if inheritStdio then None else Some "");
     backend_getCacheEntry := fun _ _ _ _ => lookup;
     backend_getCacheEntrySync := fun _ _ => lookup;
     backend_downloadCache := fun _ _ _ => download;
     backend_downloadCacheSync := fun _ _ => download;
     backend_saveCache := fun _ _ _ _ _ _ => upload;
     backend_saveCacheSync := fun _ _ => upload |}.

Definition linux : Env :=
  machine "linux" "/" false (Normal "/tmp/c") (fun l => Normal l)
    (Normal (Some stored_entry)) (Normal tt) (Normal tt).

Definition linux_debug : Env :=
  machine "linux" "/" true (Normal "/tmp/c") (fun l => Normal l)
    (Normal (Some stored_entry)) (Normal tt) (Normal tt).

Definition windows : Env :=
  machine "win32" "\" false (Normal "C:\tmp") (fun l => Normal l)
    (Normal (Some stored_entry)) (Normal tt) (Normal tt).

(** A machine whose temporary directory cannot be created. *)
Definition linux_disk_full : Env :=
  machine "linux" "/" false (Throw disk_full) (fun l => Normal l)
    (Normal (Some stored_entry)) (Normal tt) (Normal tt).

(** A machine whose path resolver fails. *)
Definition linux_glob_fails : Env :=
  machine "linux" "/" false (Normal "/tmp/c") (fun _ => Throw disk_full)
    (Normal (Some stored_entry)) (Normal tt) (Normal tt).

End Scenario.

(** * Proof automation *)

(** ** Case analysis of a pipeline run *)

Ltac unfold_pipeline :=
  unfold restoreCache_guarded, restoreCache_try, restore_extract,
    restore_catch, restoreCacheSync_try, saveCache_guarded, saveCache_try,
    save_archive, save_catch, saveCacheSync_try, delete_archive, log_output,
    try_finally, try_catch, bind, ret, throw, debug, info, warning, log,
    call, assign_archivePath, read_archivePath, record_event, restore_entry,
    restoreSync_entry, init,
    ValidationError_name, ReserveCacheError_name in *;
  cbn [trace var_archivePath app fst snd] in *.

(** Split on the scrutinee of an innermost [match] or [if] of the goal. *)
Ltac case_step :=
  match goal with
  | |- context [match ?x with _ => _ end] =>
      lazymatch x with
      | context [match _ with _ => _ end] => fail
      | _ => destruct x eqn:?
      end
  end;
  cbn [trace var_archivePath app fst snd] in *.

Ltac case_all := repeat case_step.

(** Membership of an event in an explicit trace. *)
Ltac in_trace := cbn [In]; repeat (first [left; reflexivity | right]).

Ltac not_in_trace :=
  let H := fresh in
  intro H; cbn [In] in H;
  repeat match type of H with
         | _ \/ _ => destruct H as [H|H]
         end;
  first [discriminate H | contradiction H].

Ltac split_in H :=
  cbn [In] in H;
  repeat match type of H with
         | _ \/ _ => destruct H as [H|H]
         end.

Ltac reduce_tests :=
  cbn [JS.truthy andb negb String.eqb Ascii.eqb Bool.eqb app
       trace var_archivePath fst snd] in *.

(** Solve a goal from a hypothesis [H] that places an event in an explicit
    trace. *)
Ltac by_trace H :=
  split_in H;
  first [ contradiction
        | discriminate H
        | injection H as H; subst; first [ congruence | in_trace ] ].

(** ** Case analysis of a whole pipeline *)

Ltac unfold_whole :=
  unfold restoreCacheSync, saveCache, saveCacheSync, checkPaths, checkKey
    in *;
  unfold_pipeline.

(** Solve a goal about an arbitrary event of an explicit trace. *)
Ltac all_events H :=
  split_in H; first [ contradiction | subst; reflexivity ].

(** * Properties *)

(** ** Input validation *)

Lemma regex_no_comma_test_spec (key : string) :
  regex_no_comma_test key = true <-> ~ In ","%char (list_ascii_of_string key).
Proof.
  induction key as [|c rest IH]; simpl.
  - split; [intros _ [] | reflexivity].
  - rewrite andb_true_iff, negb_true_iff, IH.
    destruct (Ascii.eqb_spec c ",") as [->|Hc]; split.
    + intros [H _]; discriminate H.
    + intros H; exfalso; apply H; left; reflexivity.
    + intros [_ H] [E|E]; [congruence | exact (H E)].
    + intros H; split; [reflexivity | intro E; apply H; right; exact E].
Qed.

Lemma valid_key_spec (key : string) :
  valid_key key = false <->
  512 < String.length key \/ In ","%char (list_ascii_of_string key).
Proof.
  unfold valid_key. rewrite andb_false_iff, Nat.leb_gt.
  split; intros [H|H]; auto.
  - right. destruct (in_dec ascii_dec ","%char (list_ascii_of_string key))
      as [Hin|Hout]; [exact Hin|].
    apply regex_no_comma_test_spec in Hout. congruence.
  - right. destruct (regex_no_comma_test key) eqn:E; [|reflexivity].
    apply regex_no_comma_test_spec in E. contradiction.
Qed.

Lemma checkKey_ok (key : string) (s : State) :
  valid_key key = true -> checkKey key s = (Normal tt, s).
Proof.
  unfold valid_key, checkKey. rewrite andb_true_iff, Nat.leb_le.
  intros [Hlen Hre].
  destruct (Nat.ltb_spec 512 (String.length key)); [lia|].
  rewrite Hre. reflexivity.
Qed.

Lemma checkKey_fail (key : string) (s : State) :
  valid_key key = false ->
  exists msg, checkKey key s = (Throw (ValidationError msg), s).
Proof.
  unfold valid_key, checkKey. rewrite andb_false_iff, Nat.leb_gt.
  destruct (Nat.ltb_spec 512 (String.length key)) as [Hlt|Hge].
  - intros _. eexists; reflexivity.
  - intros [H|H]; [lia|]. rewrite H. eexists; reflexivity.
Qed.

Lemma for_of_checkKey_ok (keys : list string) (s : State) :
  forallb valid_key keys = true -> for_of keys checkKey s = (Normal tt, s).
Proof.
  induction keys as [|k rest IH]; simpl; [reflexivity|].
  rewrite andb_true_iff. intros [Hk Hrest].
  unfold bind. rewrite (checkKey_ok _ _ Hk). apply IH, Hrest.
Qed.

Lemma for_of_checkKey_fail (keys : list string) (s : State) :
  forallb valid_key keys = false ->
  exists msg, for_of keys checkKey s = (Throw (ValidationError msg), s).
Proof.
  induction keys as [|k rest IH]; simpl; [discriminate|].
  intros H. unfold bind. destruct (valid_key k) eqn:Hk.
  - rewrite (checkKey_ok _ _ Hk). apply IH. exact H.
  - destruct (checkKey_fail k s Hk) as [msg ->]. exists msg; reflexivity.
Qed.

Lemma forallb_valid_key_false (keys : list string) :
  forallb valid_key keys = false <->
  exists k, In k keys /\
    (512 < String.length k \/ In ","%char (list_ascii_of_string k)).
Proof.
  split.
  - intros H. induction keys as [|k rest IH]; simpl in H; [discriminate|].
    apply andb_false_iff in H. destruct H as [H|H].
    + exists k. split; [left; reflexivity | apply valid_key_spec, H].
    + destruct (IH H) as (k' & Hin & Hk'). exists k'. split; [right|]; auto.
  - intros (k & Hin & Hk). apply valid_key_spec in Hk.
    destruct (forallb valid_key keys) eqn:E; [|reflexivity].
    rewrite forallb_forall in E. rewrite (E k Hin) in Hk. discriminate.
Qed.

(** A valid input takes [restoreCache] to its [try] block. *)
Lemma restoreCache_enters_try (env : Env) paths primaryKey restoreKeys
    options enableCrossOsArchive customCompression (s : State) :
  restore_input_ok paths primaryKey restoreKeys = true ->
  restoreCache env paths primaryKey restoreKeys options enableCrossOsArchive
    customCompression s
  = restoreCache_guarded env
      (primaryKey :: JS.default_param [] restoreKeys) (array_of paths) options
      (JS.default_param false enableCrossOsArchive)
      (JS.default_param "none" customCompression)
      (getCompressionMethod env (JS.default_param "none" customCompression))
      (restore_entry (primaryKey :: JS.default_param [] restoreKeys) s).
Proof.
  unfold restore_input_ok. rewrite !andb_true_iff, negb_true_iff, Nat.leb_le.
  intros [[Hp Hlen] Hkeys].
  unfold restoreCache, checkPaths. rewrite Hp.
  unfold bind at 1. unfold ret at 1.
  unfold bind at 1. unfold debug at 1, log, call.
  unfold bind at 1. unfold debug at 1, log, call.
  destruct (Nat.ltb_spec 10
    (List.length (primaryKey :: JS.default_param [] restoreKeys)));
    [lia|].
  unfold bind at 1. unfold ret at 1.
  unfold bind at 1. rewrite (for_of_checkKey_ok _ _ Hkeys).
  unfold bind at 1. unfold assign_archivePath.
  unfold restore_entry, record_event. cbn [trace var_archivePath].
  rewrite <- app_assoc. reflexivity.
Qed.

Lemma is_log_not_network (ev : Event) :
  is_log ev = true -> is_network_call ev = false.
Proof. destruct ev; cbn; congruence. Qed.

(** An invalid input makes [restoreCache] throw a [ValidationError] when
    nothing but the two debug lines has happened. *)
Lemma restoreCache_rejects (env : Env) paths primaryKey restoreKeys
    options enableCrossOsArchive customCompression :
  restore_input_ok paths primaryKey restoreKeys = false ->
  exists msg s,
    restoreCache env paths primaryKey restoreKeys options enableCrossOsArchive
      customCompression init = (Throw (ValidationError msg), s)
    /\ forall ev, In ev (trace s) -> is_log ev = true.
Proof.
  unfold restore_input_ok. rewrite !andb_false_iff, negb_false_iff, Nat.leb_gt.
  intros H.
  unfold restoreCache, checkPaths.
  destruct (paths_missing paths) eqn:Hp.
  { do 2 eexists. split; [reflexivity|]. intros ev []. }
  unfold bind at 1. unfold ret at 1.
  unfold bind at 1. unfold debug at 1, log, call.
  unfold bind at 1. unfold debug at 1, log, call.
  set (keys := primaryKey :: JS.default_param [] restoreKeys) in *.
  assert (Hlogs : forall ev,
    In ev (trace (record_event (EvLog Debug (JS.JSON_stringify keys))
                    (record_event (EvLog Debug "Resolved Keys:") init))) ->
    is_log ev = true).
  { cbn [record_event trace init app]. intros ev [<-|[<-|[]]]; reflexivity. }
  destruct (Nat.ltb_spec 10 (List.length keys)) as [Hlt|Hge].
  { do 2 eexists. split; [reflexivity|]. exact Hlogs. }
  unfold bind at 1. unfold ret at 1.
  destruct H as [[H|H]|H]; [discriminate | lia |].
  unfold bind at 1.
  destruct (for_of_checkKey_fail keys
    (record_event (EvLog Debug (JS.JSON_stringify keys))
       (record_event (EvLog Debug "Resolved Keys:") init)) H) as [msg ->].
  do 2 eexists. split; [reflexivity|]. exact Hlogs.
Qed.

(** ** The [finally] block *)

(** The deletion of the archive never throws: it records the [unlinkFile]
    call and, when that call fails, one debug line. *)
Lemma delete_archive_total (env : Env) (p : string) (s : State) :
  exists s',
    delete_archive env p s = (Normal tt, s')
    /\ var_archivePath s' = var_archivePath s
    /\ ((unlinkFile env p = Normal tt
         /\ trace s' = (trace s ++ [EvUnlinkFile p])%list)
        \/ exists e,
             unlinkFile env p = Throw e
             /\ trace s'
                = (trace s ++ [EvUnlinkFile p;
                     EvLog Debug ("Failed to delete archive: "
                                    ++ JS.Error_toString e)])%list).
Proof.
  unfold delete_archive, try_catch, call, debug, log, call, record_event.
  destruct (unlinkFile env p) as [[]|e]; cbn [trace var_archivePath].
  - eexists. split; [reflexivity|]. split; [reflexivity|]. left. auto.
  - eexists. split; [reflexivity|]. split; [reflexivity|]. right.
    exists e. split; [reflexivity|]. rewrite <- app_assoc. reflexivity.
Qed.

(** A [try ... finally] whose finalizer deletes the archive completes as its
    body does. *)
Lemma try_finally_delete {A : Type} (env : Env) (body : M A) (p : string)
    (s : State) :
  fst (try_finally body (delete_archive env p) s) = fst (body s).
Proof.
  unfold try_finally. destruct (body s) as [c s1].
  destruct (delete_archive_total env p s1) as (s2 & -> & _). reflexivity.
Qed.

Lemma restoreCache_guarded_completion (env : Env) keys paths options x cc m s :
  fst (restoreCache_guarded env keys paths options x cc m s)
  = fst (try_catch (restoreCache_try env keys paths options x cc m)
           (restore_catch) s).
Proof.
  unfold restoreCache_guarded, try_finally.
  destruct (try_catch _ _ s) as [c s1].
  unfold bind, read_archivePath.
  destruct (delete_archive_total env (var_archivePath s1) s1)
    as (s2 & -> & _). reflexivity.
Qed.

(** ** Cache miss *)

(** C6: when validation passes and the remote lookup answers no entry, or an
    entry whose [archiveLocation] is missing (or the empty string),
    [restoreCache] returns [undefined], raises nothing, and neither creates a
    temporary directory nor calls the download. *)
Theorem restoreCache_miss (env : Env) paths primaryKey restoreKeys options
    enableCrossOsArchive customCompression entry :
  restore_input_ok paths primaryKey restoreKeys = true ->
  backend_getCacheEntry env (primaryKey :: JS.default_param [] restoreKeys)
    (array_of paths)
    (getCompressionMethod env (JS.default_param "none" customCompression))
    (JS.default_param false enableCrossOsArchive) = Normal entry ->
  (entry = None \/
   exists e, entry = Some e /\
     (archiveLocation e = None \/ archiveLocation e = Some "")) ->
  let run := restoreCache env paths primaryKey restoreKeys options
               enableCrossOsArchive customCompression init in
  fst run = Normal None
  /\ (forall location archivePath o,
        ~ In (EvDownloadCache location archivePath o) (trace (snd run)))
  /\ ~ In EvCreateTempDirectory (trace (snd run)).
Proof.
  intros Hok Hlookup Hentry run. subst run.
  rewrite (restoreCache_enters_try _ _ _ _ _ _ _ _ Hok).
  unfold_pipeline. rewrite Hlookup.
  assert (Hloc : truthy_archiveLocation entry = None).
  { destruct Hentry as [->|(e & -> & [He|He])]; cbn; rewrite ?He;
      reflexivity. }
  rewrite Hloc. cbn.
  destruct (unlinkFile env "") eqn:Hunlink; cbn;
    (split; [reflexivity|]); (split; [intros ? ? ?|]); not_in_trace.
Qed.

(** ** Lookup and hit *)

(** Every lookup of a [restoreCache] run carries the key list it was
    entered with. *)
Lemma restoreCache_guarded_lookups (env : Env) keys paths options x cc m :
  forall ks ps m' b,
    In (EvGetCacheEntry ks ps m' b)
       (trace (snd (restoreCache_guarded env keys paths options x cc m
                      (restore_entry keys init)))) ->
    ks = keys.
Proof.
  intros ks ps m' b. unfold_pipeline. case_all;
    intros H; split_in H;
    first [ contradiction | discriminate H | congruence ].
Qed.

(** The lookup is the first call of the [try] block, and the only lookup. *)
Lemma restoreCache_guarded_first_call (env : Env) keys paths options x cc m :
  exists rest,
    trace (snd (restoreCache_guarded env keys paths options x cc m
                  (restore_entry keys init)))
    = EvLog Debug "Resolved Keys:"
        :: EvLog Debug (JS.JSON_stringify keys)
        :: EvGetCacheEntry keys paths m x
        :: rest
    /\ forall ks ps m' b, ~ In (EvGetCacheEntry ks ps m' b) rest.
Proof.
  unfold_pipeline. case_all;
    (eexists; split; [reflexivity|]; intros ? ? ? ?; not_in_trace).
Qed.

(** A key returned by the guarded block is the [cacheKey] of the entry the
    lookup answered. *)
Lemma restoreCache_guarded_returns (env : Env) keys paths options x cc m k :
  fst (restoreCache_guarded env keys paths options x cc m
         (restore_entry keys init)) = Normal (Some k) ->
  exists e, backend_getCacheEntry env keys paths m x = Normal (Some e)
            /\ truthy_archiveLocation (Some e) <> None
            /\ cacheKey e = Some k.
Proof.
  unfold_pipeline.
  destruct (backend_getCacheEntry env keys paths m x) as [[e|]|err] eqn:Hl;
    cbn [trace var_archivePath app fst snd].
  - destruct (truthy_archiveLocation (Some e)) eqn:Hloc;
      cbn [trace var_archivePath app fst snd].
    + case_all; intros H; try discriminate H;
        (exists e; split; [reflexivity|]; split; congruence).
    + case_all; intros H; discriminate H.
  - cbn. case_all; intros H; discriminate H.
  - case_all; intros H; discriminate H.
Qed.

(** When the lookup answered an entry with a location, a [try] block that
    completes returns that entry's [cacheKey]. *)
Lemma restoreCache_try_hit (env : Env) keys paths options x cc m e v s s1 :
  backend_getCacheEntry env keys paths m x = Normal (Some e) ->
  truthy_archiveLocation (Some e) <> None ->
  restoreCache_try env keys paths options x cc m s = (Normal v, s1) ->
  v = cacheKey e.
Proof.
  intros Hlookup Hloc. unfold_pipeline. rewrite Hlookup.
  destruct (truthy_archiveLocation (Some e)) as [location|];
    [clear Hloc | contradiction].
  cbn [trace var_archivePath app fst snd].
  case_all; intros H; first [discriminate H | congruence].
Qed.

(** C8: the remote lookup of [restoreCache] receives the key list
    [primaryKey :: restoreKeys], in that order: every lookup of a run carries
    that list, and a run that passes validation performs exactly one lookup,
    as its first call.  On a hit, when the [try] block completes,
    [restoreCache] returns the [cacheKey] field of the entry the lookup
    answered, whichever key of the list it matched; and whenever
    [restoreCache] returns a key, it is that field. *)
Theorem restoreCache_lookup_order (env : Env) paths primaryKey restoreKeys
    options enableCrossOsArchive customCompression :
  let keys := primaryKey :: JS.default_param [] restoreKeys in
  let m := getCompressionMethod env
             (JS.default_param "none" customCompression) in
  let x := JS.default_param false enableCrossOsArchive in
  let run := restoreCache env paths primaryKey restoreKeys options
               enableCrossOsArchive customCompression init in
  (forall ks ps m' b,
     In (EvGetCacheEntry ks ps m' b) (trace (snd run)) -> ks = keys)
  /\ (restore_input_ok paths primaryKey restoreKeys = true ->
      exists rest,
        trace (snd run)
        = EvLog Debug "Resolved Keys:"
            :: EvLog Debug (JS.JSON_stringify keys)
            :: EvGetCacheEntry keys (array_of paths) m x
            :: rest
        /\ forall ks ps m' b, ~ In (EvGetCacheEntry ks ps m' b) rest)
  /\ (forall e location v s1,
        restore_input_ok paths primaryKey restoreKeys = true ->
        backend_getCacheEntry env keys (array_of paths) m x
          = Normal (Some e) ->
        archiveLocation e = Some location ->
        location <> "" ->
        restoreCache_try env keys (array_of paths) options x
          (JS.default_param "none" customCompression) m
          (restore_entry keys init) = (Normal v, s1) ->
        fst run = Normal (cacheKey e))
  /\ (forall k,
        fst run = Normal (Some k) ->
        exists e,
          backend_getCacheEntry env keys (array_of paths) m x
            = Normal (Some e)
          /\ cacheKey e = Some k).
Proof.
  intros keys m x run. subst run.
  destruct (restore_input_ok paths primaryKey restoreKeys) eqn:Hok.
  - rewrite (restoreCache_enters_try _ _ _ _ _ _ _ _ Hok).
    fold keys m x. split; [|split; [|split]].
    + apply restoreCache_guarded_lookups.
    + intros _. apply restoreCache_guarded_first_call.
    + intros e location v s1 _ Hlookup Hloc Hne Hbody.
      rewrite restoreCache_guarded_completion. unfold try_catch.
      rewrite Hbody. cbn [fst]. f_equal.
      eapply restoreCache_try_hit; [exact Hlookup | | exact Hbody].
      cbn. rewrite Hloc. destruct location; [contradiction|discriminate].
    + intros k Hk.
      destruct (restoreCache_guarded_returns _ _ _ _ _ _ _ _ Hk)
        as (e & He & _ & Hkey).
      exists e. split; assumption.
  - destruct (restoreCache_rejects env paths primaryKey restoreKeys options
                enableCrossOsArchive customCompression Hok)
      as (msg & s & Hrun & Hquiet).
    rewrite Hrun. cbn [fst snd]. split; [|split; [|split]].
    + intros ks ps m' b Hin. apply Hquiet in Hin. discriminate Hin.
    + intros H; discriminate H.
    + intros e location v s1 H; discriminate H.
    + intros k H; discriminate H.
Qed.

(** C7: a lookup-only [restoreCache] whose lookup answers an entry with a
    (non-empty) [archiveLocation] returns that entry's [cacheKey]; it creates
    no temporary directory, downloads nothing, extracts nothing, and the
    only deletion it issues is on the initial, empty [archivePath], which
    names no file. *)
Theorem restoreCache_lookup_only (env : Env) paths primaryKey restoreKeys
    options enableCrossOsArchive customCompression e location :
  restore_input_ok paths primaryKey restoreKeys = true ->
  truthy_lookupOnly options = true ->
  backend_getCacheEntry env (primaryKey :: JS.default_param [] restoreKeys)
    (array_of paths)
    (getCompressionMethod env (JS.default_param "none" customCompression))
    (JS.default_param false enableCrossOsArchive) = Normal (Some e) ->
  archiveLocation e = Some location ->
  location <> "" ->
  let run := restoreCache env paths primaryKey restoreKeys options
               enableCrossOsArchive customCompression init in
  fst run = Normal (cacheKey e)
  /\ ~ In EvCreateTempDirectory (trace (snd run))
  /\ (forall loc archivePath o,
        ~ In (EvDownloadCache loc archivePath o) (trace (snd run)))
  /\ (forall archivePath m, ~ In (EvExtractTar archivePath m) (trace (snd run)))
  /\ (forall command i, ~ In (EvExecSync command i) (trace (snd run)))
  /\ (forall p, In (EvUnlinkFile p) (trace (snd run)) -> p = "").
Proof.
  intros Hok Honly Hlookup Hloc Hne run. subst run.
  rewrite (restoreCache_enters_try _ _ _ _ _ _ _ _ Hok).
  unfold_pipeline. rewrite Hlookup.
  assert (Ht : truthy_archiveLocation (Some e) = Some location).
  { cbn. rewrite Hloc. destruct location; [contradiction|reflexivity]. }
  rewrite Ht, Honly. cbn [trace var_archivePath app fst snd].
  destruct (unlinkFile env "") eqn:Hunlink;
    cbn [trace var_archivePath app fst snd];
    (split; [reflexivity|]);
    (split; [not_in_trace|]);
    (split; [intros ? ? ?; not_in_trace|]);
    (split; [intros ? ?; not_in_trace|]);
    (split; [intros ? ?; not_in_trace|]);
    intros p H; split_in H;
    first [ contradiction | discriminate H | congruence ].
Qed.

(** ** Validation *)

(** C5: [restoreCache] throws a [ValidationError] before any call to the
    remote service exactly when the path set is absent or empty, or the key
    list (primary key and restore keys) has more than 10 entries, or some key
    of the list is longer than 512 characters or contains a comma; a key of
    exactly 512 characters with no comma passes [checkKey]. *)
Theorem restoreCache_validation (env : Env) paths primaryKey restoreKeys
    options enableCrossOsArchive customCompression :
  let keys := primaryKey :: JS.default_param [] restoreKeys in
  let run := restoreCache env paths primaryKey restoreKeys options
               enableCrossOsArchive customCompression init in
  ((paths = None \/ paths = Some [] \/ 10 < List.length keys
    \/ exists k, In k keys /\
         (512 < String.length k \/ In ","%char (list_ascii_of_string k)))
   <->
   (exists msg, fst run = Throw (ValidationError msg)
      /\ forall ev, In ev (trace (snd run)) -> is_network_call ev = false))
  /\ (forall key s,
        String.length key = 512 ->
        ~ In ","%char (list_ascii_of_string key) ->
        checkKey key s = (Normal tt, s)).
Proof.
  intros keys run. subst run. split.
  - destruct (restore_input_ok paths primaryKey restoreKeys) eqn:Hok.
    + split.
      * intros H. exfalso. revert Hok. unfold restore_input_ok. fold keys.
        rewrite !andb_true_iff, negb_true_iff, Nat.leb_le.
        intros [[Hp Hlen] Hkeys].
        destruct H as [->|[->|[H|H]]]; try discriminate Hp; [lia|].
        apply forallb_valid_key_false in H. congruence.
      * intros (msg & _ & Hquiet). exfalso.
        rewrite (restoreCache_enters_try _ _ _ _ _ _ _ _ Hok) in Hquiet.
        destruct (restoreCache_guarded_first_call env keys (array_of paths)
          options (JS.default_param false enableCrossOsArchive)
          (JS.default_param "none" customCompression)
          (getCompressionMethod env
             (JS.default_param "none" customCompression)))
          as (rest & Htrace & _).
        fold keys in Hquiet. rewrite Htrace in Hquiet.
        specialize (Hquiet (EvGetCacheEntry keys (array_of paths)
          (getCompressionMethod env
             (JS.default_param "none" customCompression))
          (JS.default_param false enableCrossOsArchive))).
        cbn in Hquiet. discriminate Hquiet. auto.
    + split.
      * intros _.
        destruct (restoreCache_rejects env paths primaryKey restoreKeys
          options enableCrossOsArchive customCompression Hok)
          as (msg & s & Hrun & Hquiet).
        exists msg. rewrite Hrun. split; [reflexivity|].
        intros ev Hev. apply is_log_not_network, Hquiet, Hev.
      * intros _. revert Hok. unfold restore_input_ok. fold keys.
        rewrite !andb_false_iff, negb_false_iff, Nat.leb_gt.
        intros [[Hp|Hlen]|Hkeys].
        -- destruct paths as [[|p ps]|]; cbn in Hp; try discriminate Hp; auto.
        -- auto.
        -- right; right; right. apply forallb_valid_key_false, Hkeys.
  - intros key s Hlen Hcomma. apply checkKey_ok.
    unfold valid_key. rewrite andb_true_iff, Nat.leb_le. split; [lia|].
    apply regex_no_comma_test_spec, Hcomma.
Qed.

(** ** Entering the guarded blocks *)

Lemma restoreCacheSync_enters_try (env : Env) paths primaryKey options s :
  single_key_input_ok paths primaryKey = true ->
  restoreCacheSync env paths primaryKey options s
  = try_catch (restoreCacheSync_try env (array_of paths) primaryKey options)
      (restore_catch) (restoreSync_entry s).
Proof.
  unfold single_key_input_ok. rewrite andb_true_iff, negb_true_iff.
  intros [Hp Hk].
  unfold restoreCacheSync, checkPaths. rewrite Hp.
  unfold bind at 1. unfold ret at 1.
  unfold bind at 1. unfold debug at 1, log, call.
  unfold bind at 1. rewrite (checkKey_ok _ _ Hk). reflexivity.
Qed.

Lemma nonempty_length {A : Type} (l : list A) :
  l <> [] -> Nat.eqb (List.length l) 0 = false.
Proof. destruct l; [contradiction | reflexivity]. Qed.

Lemma saveCache_enters_try (env : Env) paths key options enableCrossOsArchive
    customCompression cachePaths archiveFolder :
  single_key_input_ok paths key = true ->
  resolvePaths env (array_of paths) = Normal cachePaths ->
  cachePaths <> [] ->
  createTempDirectory env = Normal archiveFolder ->
  let m := getCompressionMethod env
             (JS.default_param "none" customCompression) in
  let archivePath := path_join env archiveFolder (getCacheFileName env m) in
  saveCache env paths key options enableCrossOsArchive customCompression init
  = saveCache_guarded env (-1) (array_of paths) key
      (JS.default_param false enableCrossOsArchive)
      (JS.default_param "none" customCompression) m cachePaths archiveFolder
      archivePath (save_entry (array_of paths) cachePaths archivePath).
Proof.
  unfold single_key_input_ok. rewrite andb_true_iff, negb_true_iff.
  intros [Hp Hk] Hres Hne Htmp. cbv zeta.
  unfold saveCache, checkPaths. rewrite Hp.
  unfold bind at 1. unfold info at 1, log, call.
  unfold bind at 1. unfold ret at 1.
  unfold bind at 1. rewrite (checkKey_ok _ _ Hk).
  unfold bind at 1. unfold info at 1, log, call.
  unfold bind at 1. rewrite Hres.
  unfold bind at 1. unfold info at 1, log, call.
  unfold bind at 1. unfold info at 1, log, call.
  rewrite (nonempty_length _ Hne).
  unfold bind at 1. unfold ret at 1.
  unfold bind at 1. rewrite Htmp.
  unfold bind at 1. unfold info at 1, log, call.
  reflexivity.
Qed.

Lemma saveCacheSync_enters_try (env : Env) paths key cachePaths :
  single_key_input_ok paths key = true ->
  resolvePaths env (array_of paths) = Normal cachePaths ->
  cachePaths <> [] ->
  saveCacheSync env paths key init
  = try_catch (saveCacheSync_try env (array_of paths) key)
      (save_catch (-1)) (saveSync_entry (array_of paths) cachePaths).
Proof.
  unfold single_key_input_ok. rewrite andb_true_iff, negb_true_iff.
  intros [Hp Hk] Hres Hne.
  unfold saveCacheSync, checkPaths. rewrite Hp.
  unfold bind at 1. unfold info at 1, log, call.
  unfold bind at 1. unfold ret at 1.
  unfold bind at 1. rewrite (checkKey_ok _ _ Hk).
  unfold bind at 1. rewrite Hres.
  unfold bind at 1. unfold debug at 1, log, call.
  unfold bind at 1. unfold debug at 1, log, call.
  rewrite (nonempty_length _ Hne).
  unfold bind at 1. unfold ret at 1.
  reflexivity.
Qed.

(** ** Failure policy of the restore pipelines *)

Lemma restore_catch_rethrows (e : JS.Error) (s : State) :
  JS.name e = "ValidationError" -> restore_catch e s = (Throw e, s).
Proof.
  intros H. unfold restore_catch, ValidationError_name. rewrite H.
  reflexivity.
Qed.

Lemma restore_catch_swallows (e : JS.Error) (s : State) :
  JS.name e <> "ValidationError" ->
  restore_catch e s
  = (Normal None,
     record_event (EvLog Warning ("Failed to restore: " ++ JS.message e)) s).
Proof.
  intros H. unfold restore_catch, ValidationError_name.
  apply String.eqb_neq in H. rewrite H. reflexivity.
Qed.

Lemma restore_catch_throws_only_validation (e e' : JS.Error) (s : State) :
  fst (restore_catch e s) = Throw e' -> JS.name e' = "ValidationError".
Proof.
  unfold restore_catch, ValidationError_name.
  destruct (String.eqb_spec (JS.name e) "ValidationError") as [Hn|Hn];
    cbn; intros H; [congruence | discriminate H].
Qed.

(** The events of a guarded block follow those of its [try] block and its
    [catch] block. *)
Lemma restoreCache_guarded_trace (env : Env) keys paths options x cc m s c s1 :
  try_catch (restoreCache_try env keys paths options x cc m) restore_catch s
    = (c, s1) ->
  exists post,
    trace (snd (restoreCache_guarded env keys paths options x cc m s))
    = (trace s1 ++ post)%list.
Proof.
  intros H. unfold restoreCache_guarded, try_finally. rewrite H.
  unfold bind, read_archivePath.
  destruct (delete_archive_total env (var_archivePath s1) s1)
    as (s2 & -> & _ & [[_ Ht]|(e & _ & Ht)]); cbn [snd]; rewrite Ht;
    eexists; reflexivity.
Qed.

(** C2: on an input that passes validation, [restoreCache] and
    [restoreCacheSync] throw only errors named [ValidationError]; when their
    [try] block (lookup, download, extraction) throws any other error, the
    error is logged as a warning and the function returns [undefined]. *)
Theorem restore_suppresses_errors (env : Env) paths primaryKey restoreKeys
    options enableCrossOsArchive customCompression :
  let keys := primaryKey :: JS.default_param [] restoreKeys in
  let cc := JS.default_param "none" customCompression in
  let m := getCompressionMethod env cc in
  let x := JS.default_param false enableCrossOsArchive in
  let run := restoreCache env paths primaryKey restoreKeys options
               enableCrossOsArchive customCompression init in
  let runSync := restoreCacheSync env paths primaryKey options init in
  (restore_input_ok paths primaryKey restoreKeys = true ->
     (forall e, fst run = Throw e -> JS.name e = "ValidationError")
     /\ (forall e s1,
           restoreCache_try env keys (array_of paths) options x cc m
             (restore_entry keys init) = (Throw e, s1) ->
           JS.name e <> "ValidationError" ->
           fst run = Normal None
           /\ In (EvLog Warning ("Failed to restore: " ++ JS.message e))
                 (trace (snd run))))
  /\ (single_key_input_ok paths primaryKey = true ->
     (forall e, fst runSync = Throw e -> JS.name e = "ValidationError")
     /\ (forall e s1,
           restoreCacheSync_try env (array_of paths) primaryKey options
             (restoreSync_entry init) = (Throw e, s1) ->
           JS.name e <> "ValidationError" ->
           fst runSync = Normal None
           /\ In (EvLog Warning ("Failed to restore: " ++ JS.message e))
                 (trace (snd runSync)))).
Proof.
  intros keys cc m x run runSync. subst run runSync. split.
  - intros Hok. rewrite (restoreCache_enters_try _ _ _ _ _ _ _ _ Hok).
    fold keys cc m x. split.
    + intros e. rewrite restoreCache_guarded_completion.
      unfold try_catch.
      destruct (restoreCache_try env keys (array_of paths) options x cc m
                  (restore_entry keys init)) as [[v|e0] s1].
      * intros H; discriminate H.
      * apply restore_catch_throws_only_validation.
    + intros e s1 Hbody Hname. split.
      * rewrite restoreCache_guarded_completion. unfold try_catch.
        rewrite Hbody, (restore_catch_swallows _ _ Hname). reflexivity.
      * destruct (restoreCache_guarded_trace env keys (array_of paths)
                    options x cc m (restore_entry keys init) (Normal None)
                    (record_event
                       (EvLog Warning
                          ("Failed to restore: " ++ JS.message e)) s1))
          as [post ->].
        { unfold try_catch.
          rewrite Hbody, (restore_catch_swallows _ _ Hname). reflexivity. }
        unfold record_event. cbn [trace]. rewrite !in_app_iff.
        left; right; left; reflexivity.
  - intros Hok. rewrite (restoreCacheSync_enters_try _ _ _ _ _ Hok). split.
    + intros e. unfold try_catch.
      destruct (restoreCacheSync_try env (array_of paths) primaryKey options
                  (restoreSync_entry init)) as [[v|e0] s1].
      * intros H; discriminate H.
      * apply restore_catch_throws_only_validation.
    + intros e s1 Hbody Hname. unfold try_catch.
      rewrite Hbody, (restore_catch_swallows _ _ Hname).
      split; [reflexivity|].
      unfold record_event. cbn [snd trace]. rewrite in_app_iff.
      right; left; reflexivity.
Qed.

(** ** Failure policy of the save pipelines *)

Lemma save_catch_rethrows (cacheId : Z) (e : JS.Error) (s : State) :
  JS.name e = "ValidationError" -> save_catch cacheId e s = (Throw e, s).
Proof.
  intros H. unfold save_catch, ValidationError_name. rewrite H. reflexivity.
Qed.

Lemma save_catch_swallows (cacheId : Z) (e : JS.Error) (s : State) :
  JS.name e <> "ValidationError" ->
  save_catch cacheId e s
  = (Normal cacheId,
     record_event
       (EvLog (if String.eqb (JS.name e) "ReserveCacheError"
               then Info else Warning)
              ("Failed to save: " ++ JS.message e)) s).
Proof.
  intros H. unfold save_catch, ValidationError_name, ReserveCacheError_name.
  apply String.eqb_neq in H. rewrite H.
  destruct (String.eqb (JS.name e) "ReserveCacheError"); reflexivity.
Qed.

Lemma saveCache_guarded_completion (env : Env) cacheId paths key x cc m
    cachePaths archiveFolder archivePath s :
  fst (saveCache_guarded env cacheId paths key x cc m cachePaths
         archiveFolder archivePath s)
  = fst (try_catch
           (saveCache_try env paths key x cc m cachePaths archiveFolder
              archivePath)
           (save_catch cacheId) s).
Proof. unfold saveCache_guarded. apply try_finally_delete. Qed.

Lemma saveCache_guarded_trace (env : Env) cacheId paths key x cc m cachePaths
    archiveFolder archivePath s c s1 :
  try_catch
    (saveCache_try env paths key x cc m cachePaths archiveFolder archivePath)
    (save_catch cacheId) s = (c, s1) ->
  exists post,
    trace (snd (saveCache_guarded env cacheId paths key x cc m cachePaths
                  archiveFolder archivePath s))
    = (trace s1 ++ EvUnlinkFile archivePath :: post)%list
    /\ (post = []
        \/ exists e, unlinkFile env archivePath = Throw e
             /\ post = [EvLog Debug ("Failed to delete archive: "
                                      ++ JS.Error_toString e)]).
Proof.
  intros H. unfold saveCache_guarded, try_finally. rewrite H.
  destruct (delete_archive_total env archivePath s1)
    as (s2 & -> & _ & [[_ Ht]|(e & He & Ht)]); cbn [snd]; rewrite Ht;
    eexists; (split; [reflexivity|]); [left; reflexivity|].
  right. exists e. split; [exact He | reflexivity].
Qed.

(** C3: on a save that passes validation and whose paths resolve to at least
    one path, once the archive is built and measured: [saveCache] returns 1
    when the upload completes, and returns -1 without throwing when the
    upload throws a [ReserveCacheError] or any other error not named
    [ValidationError]; [saveCacheSync] does the same around its upload. *)
Theorem save_outcome (env : Env) paths key options enableCrossOsArchive
    customCompression cachePaths :
  let cc := JS.default_param "none" customCompression in
  let m := getCompressionMethod env cc in
  let x := JS.default_param false enableCrossOsArchive in
  let run := saveCache env paths key options enableCrossOsArchive
               customCompression init in
  let runSync := saveCacheSync env paths key init in
  single_key_input_ok paths key = true ->
  resolvePaths env (array_of paths) = Normal cachePaths ->
  cachePaths <> [] ->
  (forall archiveFolder s1 size,
     createTempDirectory env = Normal archiveFolder ->
     let archivePath := path_join env archiveFolder (getCacheFileName env m) in
     save_archive env archiveFolder archivePath cachePaths m cc
       (save_entry (array_of paths) cachePaths archivePath)
       = (Normal tt, s1) ->
     getArchiveFileSizeInBytes env archivePath = Normal size ->
     (backend_saveCache env key (array_of paths) archivePath m x size
        = Normal tt ->
      fst run = Normal 1%Z)
     /\ (forall e,
           backend_saveCache env key (array_of paths) archivePath m x size
             = Throw e ->
           JS.name e <> "ValidationError" ->
           fst run = Normal (-1)%Z))
  /\ (backend_saveCacheSync env key (array_of paths) = Normal tt ->
      fst runSync = Normal 1%Z)
  /\ (forall e,
        backend_saveCacheSync env key (array_of paths) = Throw e ->
        JS.name e <> "ValidationError" ->
        fst runSync = Normal (-1)%Z).
Proof.
  intros cc m x run runSync Hok Hres Hne. subst run runSync.
  split; [|split].
  - intros archiveFolder s1 size Htmp archivePath Hbuild Hsize.
    rewrite (saveCache_enters_try env paths key options enableCrossOsArchive
               customCompression cachePaths archiveFolder Hok Hres Hne Htmp).
    fold cc m x archivePath.
    rewrite saveCache_guarded_completion.
    split; [intros Hup | intros e Hup Hname];
      unfold try_catch, saveCache_try;
      unfold bind at 1; rewrite Hbuild;
      unfold bind at 1; unfold call at 1; rewrite Hsize;
      unfold bind at 1; unfold info at 1, log, call;
      unfold bind at 1; rewrite Hup.
    + reflexivity.
    + rewrite (save_catch_swallows _ _ _ Hname). reflexivity.
  - intros Hup.
    rewrite (saveCacheSync_enters_try env paths key cachePaths Hok Hres Hne).
    unfold try_catch, saveCacheSync_try, bind, call. rewrite Hup.
    reflexivity.
  - intros e Hup Hname.
    rewrite (saveCacheSync_enters_try env paths key cachePaths Hok Hres Hne).
    unfold try_catch, saveCacheSync_try, bind, call. rewrite Hup.
    rewrite (save_catch_swallows _ _ _ Hname). reflexivity.
Qed.

(** C9: a save whose input paths are given, whose key is valid, and whose
    paths resolve to none throws a plain [Error], which is not a
    [ValidationError], instead of returning the -1 sentinel; so do
    [saveCache] and [saveCacheSync]. *)
Theorem save_nothing_resolved (env : Env) paths key options
    enableCrossOsArchive customCompression :
  single_key_input_ok paths key = true ->
  resolvePaths env (array_of paths) = Normal [] ->
  (fst (saveCache env paths key options enableCrossOsArchive
          customCompression init) = Throw no_path_error
   /\ fst (saveCacheSync env paths key init) = Throw no_path_error)
  /\ JS.err_class no_path_error = JS.ClsError
  /\ JS.name no_path_error <> "ValidationError".
Proof.
  unfold single_key_input_ok. rewrite andb_true_iff, negb_true_iff.
  intros [Hp Hk] Hres. split; [split|split].
  - unfold saveCache, checkPaths. rewrite Hp.
    unfold bind at 1. unfold info at 1, log, call.
    unfold bind at 1. unfold ret at 1.
    unfold bind at 1. rewrite (checkKey_ok _ _ Hk).
    unfold bind at 1.
    unfold bind at 1. rewrite Hres. reflexivity.
  - unfold saveCacheSync, checkPaths. rewrite Hp.
    unfold bind at 1. unfold info at 1, log, call.
    unfold bind at 1. unfold ret at 1.
    unfold bind at 1. rewrite (checkKey_ok _ _ Hk).
    unfold bind at 1. rewrite Hres. reflexivity.
  - reflexivity.
  - cbn. intros H; discriminate H.
Qed.

(** ** Classification of caught errors *)

(** C10: what a guarded block does with a caught error depends on the
    error's [name] alone.  Whatever its class, an error named
    [ValidationError] thrown inside the [try] block of [restoreCache],
    [restoreCacheSync], [saveCache] or [saveCacheSync] is thrown again to the
    caller; in the two save pipelines any other caught error is swallowed,
    and it is logged at the informational level of a reservation conflict
    exactly when its name is [ReserveCacheError] (as a warning otherwise). *)
Theorem classification_by_name (env : Env) paths primaryKey restoreKeys
    options enableCrossOsArchive customCompression key uploadOptions
    cachePaths archiveFolder :
  let keys := primaryKey :: JS.default_param [] restoreKeys in
  let cc := JS.default_param "none" customCompression in
  let m := getCompressionMethod env cc in
  let x := JS.default_param false enableCrossOsArchive in
  let archivePath := path_join env archiveFolder (getCacheFileName env m) in
  let restore := restoreCache env paths primaryKey restoreKeys options
                   enableCrossOsArchive customCompression init in
  let restoreSync := restoreCacheSync env paths primaryKey options init in
  let save := saveCache env paths key uploadOptions enableCrossOsArchive
                customCompression init in
  let saveSync := saveCacheSync env paths key init in
  (restore_input_ok paths primaryKey restoreKeys = true ->
   forall e s1,
     restoreCache_try env keys (array_of paths) options x cc m
       (restore_entry keys init) = (Throw e, s1) ->
     JS.name e = "ValidationError" ->
     fst restore = Throw e)
  /\ (single_key_input_ok paths primaryKey = true ->
      forall e s1,
        restoreCacheSync_try env (array_of paths) primaryKey options
          (restoreSync_entry init) = (Throw e, s1) ->
        JS.name e = "ValidationError" ->
        fst restoreSync = Throw e)
  /\ (single_key_input_ok paths key = true ->
      resolvePaths env (array_of paths) = Normal cachePaths ->
      cachePaths <> [] ->
      (createTempDirectory env = Normal archiveFolder ->
       forall e s1,
         saveCache_try env (array_of paths) key x cc m cachePaths
           archiveFolder archivePath
           (save_entry (array_of paths) cachePaths archivePath)
           = (Throw e, s1) ->
         (JS.name e = "ValidationError" -> fst save = Throw e)
         /\ (JS.name e <> "ValidationError" ->
             fst save = Normal (-1)%Z
             /\ exists level post,
                  trace (snd save)
                  = (trace s1
                       ++ EvLog level ("Failed to save: " ++ JS.message e)
                       :: post)%list
                  /\ (level = Info <-> JS.name e = "ReserveCacheError")))
      /\ (forall e s1,
            saveCacheSync_try env (array_of paths) key
              (saveSync_entry (array_of paths) cachePaths) = (Throw e, s1) ->
            (JS.name e = "ValidationError" -> fst saveSync = Throw e)
            /\ (JS.name e <> "ValidationError" ->
                fst saveSync = Normal (-1)%Z
                /\ exists level post,
                     trace (snd saveSync)
                     = (trace s1
                          ++ EvLog level ("Failed to save: " ++ JS.message e)
                          :: post)%list
                     /\ (level = Info <-> JS.name e = "ReserveCacheError")))).
Proof.
  intros keys cc m x archivePath restore restoreSync save saveSync.
  subst restore restoreSync save saveSync.
  assert (Hlevel : forall e,
    (if String.eqb (JS.name e) "ReserveCacheError" then Info else Warning)
      = Info <-> JS.name e = "ReserveCacheError").
  { intros e. destruct (String.eqb_spec (JS.name e) "ReserveCacheError");
      split; intros H; congruence. }
  split; [|split; [|intros Hok Hres Hne; split]].
  - intros Hok e s1 Hbody Hname.
    rewrite (restoreCache_enters_try _ _ _ _ _ _ _ _ Hok).
    fold keys cc m x. rewrite restoreCache_guarded_completion.
    unfold try_catch. rewrite Hbody, (restore_catch_rethrows _ _ Hname).
    reflexivity.
  - intros Hok e s1 Hbody Hname.
    rewrite (restoreCacheSync_enters_try _ _ _ _ _ Hok).
    unfold try_catch. rewrite Hbody, (restore_catch_rethrows _ _ Hname).
    reflexivity.
  - intros Htmp e s1 Hbody.
    rewrite (saveCache_enters_try env paths key uploadOptions
               enableCrossOsArchive customCompression cachePaths archiveFolder
               Hok Hres Hne Htmp).
    fold cc m x archivePath. split.
    + intros Hname. rewrite saveCache_guarded_completion.
      unfold try_catch. rewrite Hbody, (save_catch_rethrows _ _ _ Hname).
      reflexivity.
    + intros Hname. split.
      * rewrite saveCache_guarded_completion. unfold try_catch.
        rewrite Hbody, (save_catch_swallows _ _ _ Hname). reflexivity.
      * destruct (saveCache_guarded_trace env (-1) (array_of paths) key x cc
                    m cachePaths archiveFolder archivePath
                    (save_entry (array_of paths) cachePaths archivePath)
                    (Normal (-1)%Z)
                    (record_event
                       (EvLog (if String.eqb (JS.name e) "ReserveCacheError"
                               then Info else Warning)
                          ("Failed to save: " ++ JS.message e)) s1))
          as (post & -> & _).
        { unfold try_catch.
          rewrite Hbody, (save_catch_swallows _ _ _ Hname). reflexivity. }
        do 2 eexists. split; [|apply Hlevel].
        unfold record_event. cbn [trace]. rewrite <- app_assoc. reflexivity.
  - intros e s1 Hbody.
    rewrite (saveCacheSync_enters_try env paths key cachePaths Hok Hres Hne).
    unfold try_catch. rewrite Hbody. split.
    + intros Hname. rewrite (save_catch_rethrows _ _ _ Hname). reflexivity.
    + intros Hname. rewrite (save_catch_swallows _ _ _ Hname).
      split; [reflexivity|].
      do 2 eexists. split; [|apply Hlevel]. reflexivity.
Qed.

(** ** Cleanup of the temporary archive *)

Lemma fst_bind_cong {A B : Type} (m : M A) (k1 k2 : A -> M B) (s : State) :
  (forall a s', fst (k1 a s') = fst (k2 a s')) ->
  fst (bind m k1 s) = fst (bind m k2 s).
Proof.
  intros H. unfold bind. destruct (m s) as [[a|e] s']; [apply H|reflexivity].
Qed.

Lemma restoreCache_ignores_unlinkFile (env : Env) u paths primaryKey
    restoreKeys options enableCrossOsArchive customCompression s :
  fst (restoreCache (with_unlinkFile env u) paths primaryKey restoreKeys
         options enableCrossOsArchive customCompression s)
  = fst (restoreCache env paths primaryKey restoreKeys options
           enableCrossOsArchive customCompression s).
Proof.
  destruct env. unfold restoreCache, with_unlinkFile.
  cbn [getCompressionMethod].
  repeat (apply fst_bind_cong; intros).
  rewrite !restoreCache_guarded_completion. reflexivity.
Qed.

Lemma saveCache_ignores_unlinkFile (env : Env) u paths key options
    enableCrossOsArchive customCompression s :
  fst (saveCache (with_unlinkFile env u) paths key options
         enableCrossOsArchive customCompression s)
  = fst (saveCache env paths key options enableCrossOsArchive
           customCompression s).
Proof.
  destruct env. unfold saveCache, with_unlinkFile.
  cbn [getCompressionMethod resolvePaths createTempDirectory path_join
       getCacheFileName].
  repeat (apply fst_bind_cong; intros).
  rewrite !saveCache_guarded_completion. reflexivity.
Qed.

(** Once the temporary directory exists, the local variable [archivePath]
    of [restoreCache] holds the archive's path when the [finally] block is
    entered, however the [try] block ended. *)
Lemma restore_archivePath_materialized (env : Env) keys paths options x cc m
    e location tempDirectory :
  backend_getCacheEntry env keys paths m x = Normal (Some e) ->
  truthy_archiveLocation (Some e) = Some location ->
  truthy_lookupOnly options = false ->
  createTempDirectory env = Normal tempDirectory ->
  var_archivePath
    (snd (try_catch (restoreCache_try env keys paths options x cc m)
            restore_catch (restore_entry keys init)))
  = path_join env tempDirectory (getCacheFileName env m).
Proof.
  intros Hlookup Hloc Honly Htmp.
  unfold_pipeline. rewrite Hlookup. cbn [trace var_archivePath app fst snd].
  rewrite Hloc, Honly, Htmp. cbn [trace var_archivePath app fst snd].
  case_all; reflexivity.
Qed.

(** C4: in archive mode, a failure of the deletion of the temporary archive
    never reaches the caller: [restoreCache] and [saveCache] complete in the
    same way whatever [unlinkFile] does.  Once the archive path is
    materialized (for a restore: the lookup hit, the run is not lookup-only
    and the temporary directory was created; for a save: the [try] block is
    entered), the last call of the run, on every exit path, is the deletion
    of that path, followed only by the debug line that logs its failure. *)
Theorem archive_cleanup (env : Env) paths primaryKey restoreKeys options
    enableCrossOsArchive customCompression key uploadOptions :
  let keys := primaryKey :: JS.default_param [] restoreKeys in
  let cc := JS.default_param "none" customCompression in
  let m := getCompressionMethod env cc in
  let x := JS.default_param false enableCrossOsArchive in
  (forall u,
     fst (restoreCache (with_unlinkFile env u) paths primaryKey restoreKeys
            options enableCrossOsArchive customCompression init)
     = fst (restoreCache env paths primaryKey restoreKeys options
              enableCrossOsArchive customCompression init)
     /\ fst (saveCache (with_unlinkFile env u) paths key uploadOptions
               enableCrossOsArchive customCompression init)
        = fst (saveCache env paths key uploadOptions enableCrossOsArchive
                 customCompression init))
  /\ (forall e location tempDirectory,
        restore_input_ok paths primaryKey restoreKeys = true ->
        backend_getCacheEntry env keys (array_of paths) m x
          = Normal (Some e) ->
        archiveLocation e = Some location ->
        location <> "" ->
        truthy_lookupOnly options = false ->
        createTempDirectory env = Normal tempDirectory ->
        ends_with_deletion env
          (path_join env tempDirectory (getCacheFileName env m))
          (trace (snd (restoreCache env paths primaryKey restoreKeys options
                         enableCrossOsArchive customCompression init))))
  /\ (forall cachePaths archiveFolder,
        single_key_input_ok paths key = true ->
        resolvePaths env (array_of paths) = Normal cachePaths ->
        cachePaths <> [] ->
        createTempDirectory env = Normal archiveFolder ->
        ends_with_deletion env
          (path_join env archiveFolder (getCacheFileName env m))
          (trace (snd (saveCache env paths key uploadOptions
                         enableCrossOsArchive customCompression init)))).
Proof.
  intros keys cc m x. split; [|split].
  - intros u. split.
    + apply restoreCache_ignores_unlinkFile.
    + apply saveCache_ignores_unlinkFile.
  - intros e location tempDirectory Hok Hlookup Hloc Hne Honly Htmp.
    rewrite (restoreCache_enters_try _ _ _ _ _ _ _ _ Hok).
    fold keys cc m x.
    assert (Ht : truthy_archiveLocation (Some e) = Some location).
    { cbn. rewrite Hloc. destruct location; [contradiction|reflexivity]. }
    pose proof (restore_archivePath_materialized env keys (array_of paths)
                  options x cc m e location tempDirectory Hlookup Ht Honly
                  Htmp) as Hvar.
    unfold restoreCache_guarded, try_finally.
    destruct (try_catch
                (restoreCache_try env keys (array_of paths) options x cc m)
                restore_catch (restore_entry keys init)) as [c s1].
    cbn [snd] in Hvar. unfold bind, read_archivePath. rewrite Hvar.
    destruct (delete_archive_total env
                (path_join env tempDirectory (getCacheFileName env m)) s1)
      as (s2 & -> & _ & [[Hu Htr]|(err & Hu & Htr)]);
      cbn [snd]; rewrite Htr; exists (trace s1); [left|right]; eauto.
  - intros cachePaths archiveFolder Hok Hres Hne Htmp.
    rewrite (saveCache_enters_try env paths key uploadOptions
               enableCrossOsArchive customCompression cachePaths archiveFolder
               Hok Hres Hne Htmp).
    fold cc m x. unfold saveCache_guarded, try_finally.
    destruct (try_catch _ _ _) as [c s1].
    destruct (delete_archive_total env
                (path_join env archiveFolder (getCacheFileName env m)) s1)
      as (s2 & -> & _ & [[Hu Htr]|(err & Hu & Htr)]);
      cbn [snd]; rewrite Htr; exists (trace s1); [left|right]; eauto.
Qed.

(** ** Internal codec or external archiver *)

Lemma restore_guarded_internal (env : Env) keys paths options x m :
  let t := trace (snd (restoreCache_guarded env keys paths options x "" m
                         (restore_entry keys init))) in
  (forall command i, ~ In (EvExecSync command i) t)
  /\ (forall archivePath size,
        In (EvGetArchiveFileSizeInBytes archivePath) t ->
        getArchiveFileSizeInBytes env archivePath = Normal size ->
        In (EvExtractTar archivePath m) t).
Proof.
  unfold_pipeline. reduce_tests. case_all;
    (split; [intros ? ?; not_in_trace | intros ap size H Hs; by_trace H]).
Qed.

Lemma restore_guarded_external (env : Env) keys paths options x m :
  let t := trace (snd (restoreCache_guarded env keys paths options x "none" m
                         (restore_entry keys init))) in
  (forall archivePath m', ~ In (EvExtractTar archivePath m') t)
  /\ (platform env <> "win32" ->
      forall archivePath size,
        In (EvGetArchiveFileSizeInBytes archivePath) t ->
        getArchiveFileSizeInBytes env archivePath = Normal size ->
        In (EvExecSync
              ("tar -xf " ++ archivePath ++ " -P -C " ++ baseDir env ++ " ")
              false) t)
  /\ (platform env = "win32" ->
      forall archivePath size tarPath,
        In (EvGetArchiveFileSizeInBytes archivePath) t ->
        getArchiveFileSizeInBytes env archivePath = Normal size ->
        getTarPath env = Normal tarPath ->
        In (EvExecSync
              (quoted tarPath ++ " "
                 ++ JS.join " " ["-xf"; quoted (toTarPath archivePath);
                                 "-P";
                                 "-C"; quoted (toTarPath (baseDir env))])
              true) t).
Proof.
  destruct (String.eqb_spec (platform env) "win32") as [Hw|Hw].
  - unfold_pipeline. rewrite (proj2 (String.eqb_eq _ _) Hw). reduce_tests.
    destruct (getTarPath env) as [tp|err] eqn:Htp; case_all;
      (split; [intros ? ?; not_in_trace|]);
      (split; [intros Hc; contradiction|]);
      intros _ ap size tarPath H Hs Ht;
      first [discriminate Ht | injection Ht as <-]; by_trace H.
  - unfold_pipeline. rewrite (proj2 (String.eqb_neq _ _) Hw). reduce_tests.
    case_all;
      (split; [intros ? ?; not_in_trace|]);
      (split; [|intros Hc; contradiction]);
      intros _ ap size H Hs; by_trace H.
Qed.

Lemma save_guarded_internal (env : Env) paths key x m cachePaths
    archiveFolder archivePath :
  let t := trace (snd (saveCache_guarded env (-1) paths key x "" m cachePaths
                         archiveFolder archivePath
                         (save_entry paths cachePaths archivePath))) in
  (forall command i, ~ In (EvExecSync command i) t)
  /\ In (EvCreateTar archiveFolder cachePaths m) t.
Proof.
  unfold_pipeline. unfold save_entry. reduce_tests. case_all;
    (split; [intros ? ?; not_in_trace | in_trace]).
Qed.

Lemma save_guarded_external (env : Env) paths key x m cachePaths
    archiveFolder archivePath :
  let t := trace (snd (saveCache_guarded env (-1) paths key x "none" m
                         cachePaths archiveFolder archivePath
                         (save_entry paths cachePaths archivePath))) in
  (forall f p m', ~ In (EvCreateTar f p m') t)
  /\ (platform env <> "win32" ->
      In (EvExecSync
            ("tar --posix -cf " ++ archivePath ++ " --exclude " ++ archivePath
               ++ " -P -C " ++ baseDir env ++ " " ++ JS.join " " cachePaths
               ++ " ")
            false) t)
  /\ (platform env = "win32" ->
      forall tarPath,
        getTarPath env = Normal tarPath ->
        In (EvExecSync
              (quoted tarPath ++ " "
                 ++ JS.join " " ["--posix";
                                 "-cf"; quoted (toTarPath archivePath);
                                 "--exclude"; quoted (toTarPath archivePath);
                                 "-P";
                                 "-C"; quoted (toTarPath (baseDir env))]
                 ++ " "
                 ++ JS.join " "
                      (map (fun p => quoted (toTarPath p)) cachePaths))
              true) t).
Proof.
  destruct (String.eqb_spec (platform env) "win32") as [Hw|Hw].
  - unfold_pipeline. unfold save_entry.
    rewrite (proj2 (String.eqb_eq _ _) Hw). reduce_tests.
    destruct (getTarPath env) as [tp|err] eqn:Htp; case_all;
      (split; [intros ? ? ?; not_in_trace|]);
      (split; [intros Hc; contradiction|]);
      intros _ tarPath Ht;
      first [discriminate Ht | injection Ht as <-]; in_trace.
  - unfold_pipeline. unfold save_entry.
    rewrite (proj2 (String.eqb_neq _ _) Hw). reduce_tests.
    case_all;
      (split; [intros ? ? ?; not_in_trace|]);
      (split; [|intros Hc; contradiction]);
      intros _; in_trace.
Qed.

(** A [saveCache] run either enters its [try] block, or stops in its
    prelude. *)
Lemma saveCache_cases (env : Env) paths key options enableCrossOsArchive
    customCompression :
  (exists cachePaths archiveFolder,
     single_key_input_ok paths key = true
     /\ resolvePaths env (array_of paths) = Normal cachePaths
     /\ cachePaths <> []
     /\ createTempDirectory env = Normal archiveFolder)
  \/ (forall ev,
        In ev (trace (snd (saveCache env paths key options
                             enableCrossOsArchive customCompression init))) ->
        is_save_prelude ev = true).
Proof.
  destruct (single_key_input_ok paths key) eqn:Hok.
  - destruct (resolvePaths env (array_of paths)) as [cachePaths|e] eqn:Hres.
    + destruct cachePaths as [|p rest].
      * right. revert Hok. unfold single_key_input_ok.
        rewrite andb_true_iff, negb_true_iff. intros [Hp Hk].
        unfold saveCache, checkPaths. rewrite Hp.
        unfold bind at 1. unfold info at 1, log, call.
        unfold bind at 1. unfold ret at 1.
        unfold bind at 1. rewrite (checkKey_ok _ _ Hk).
        unfold bind at 1.
        unfold bind at 1. rewrite Hres.
        cbn. intros ev H. split_in H; try contradiction; subst; reflexivity.
      * destruct (createTempDirectory env) as [archiveFolder|e] eqn:Htmp.
        -- left. exists (p :: rest), archiveFolder.
           split; [reflexivity|]. split; [reflexivity|].
           split; [discriminate | reflexivity].
        -- right. revert Hok. unfold single_key_input_ok.
           rewrite andb_true_iff, negb_true_iff. intros [Hp Hk].
           unfold saveCache, checkPaths. rewrite Hp.
           unfold bind at 1. unfold info at 1, log, call.
           unfold bind at 1. unfold ret at 1.
           unfold bind at 1. rewrite (checkKey_ok _ _ Hk).
           unfold bind at 1.
           unfold bind at 1. rewrite Hres.
           unfold bind at 1.
           unfold bind at 1.
           cbn [List.length Nat.eqb].
           unfold bind at 1. unfold ret at 1.
           unfold bind at 1. rewrite Htmp.
           cbn. intros ev H. split_in H; try contradiction; subst; reflexivity.
    + right. revert Hok. unfold single_key_input_ok.
      rewrite andb_true_iff, negb_true_iff. intros [Hp Hk].
      unfold saveCache, checkPaths. rewrite Hp.
      unfold bind at 1. unfold info at 1, log, call.
      unfold bind at 1. unfold ret at 1.
      unfold bind at 1. rewrite (checkKey_ok _ _ Hk).
      unfold bind at 1.
      unfold bind at 1. rewrite Hres.
      cbn. intros ev H. split_in H; try contradiction; subst; reflexivity.
  - right. revert Hok. unfold single_key_input_ok.
    rewrite andb_false_iff, negb_false_iff.
    unfold saveCache, checkPaths.
    destruct (paths_missing paths) eqn:Hp.
    + intros _. cbn. intros ev H. split_in H; try contradiction; subst;
        reflexivity.
    + intros [H|Hk]; [discriminate H|].
      unfold bind at 1. unfold info at 1, log, call.
      unfold bind at 1. unfold ret at 1.
      unfold bind at 1.
      destruct (checkKey_fail key
        (record_event (EvLog Info "Saving Cache via archive.") init) Hk)
        as [msg ->].
      cbn. intros ev H. split_in H; try contradiction; subst; reflexivity.
Qed.

Lemma restoreCache_rejected_trace (env : Env) paths primaryKey restoreKeys
    options enableCrossOsArchive customCompression ev :
  restore_input_ok paths primaryKey restoreKeys = false ->
  In ev (trace (snd (restoreCache env paths primaryKey restoreKeys options
                       enableCrossOsArchive customCompression init))) ->
  is_log ev = true.
Proof.
  intros Hbad Hin.
  destruct (restoreCache_rejects env paths primaryKey restoreKeys options
              enableCrossOsArchive customCompression Hbad)
    as (msg & s & Hrun & Hquiet).
  rewrite Hrun in Hin. exact (Hquiet ev Hin).
Qed.

(** C1, amended: the internal codec is the path of the empty identifier.
    With the custom-compression identifier equal to the empty string, a
    restore never starts an external process and, once the archive has been
    measured, extracts it with [extractTar]; a save never starts an external
    process and builds the archive with [createTar].  With the identifier
    absent or equal to the sentinel ["none"], neither [extractTar] nor
    [createTar] is ever called: extraction and archive creation go through
    [execSync], with the archiver's command line carrying no
    [--use-compress-program] argument. *)
Theorem codec_dispatch (env : Env) paths primaryKey restoreKeys options
    enableCrossOsArchive customCompression key uploadOptions :
  let m := getCompressionMethod env
             (JS.default_param "none" customCompression) in
  let restore := trace (snd (restoreCache env paths primaryKey restoreKeys
                               options enableCrossOsArchive customCompression
                               init)) in
  let save := trace (snd (saveCache env paths key uploadOptions
                            enableCrossOsArchive customCompression init)) in
  let entered cachePaths archiveFolder :=
    single_key_input_ok paths key = true
    /\ resolvePaths env (array_of paths) = Normal cachePaths
    /\ cachePaths <> []
    /\ createTempDirectory env = Normal archiveFolder in
  (customCompression = Some "" ->
     (forall command i,
        ~ In (EvExecSync command i) restore
        /\ ~ In (EvExecSync command i) save)
     /\ (forall archivePath size,
           In (EvGetArchiveFileSizeInBytes archivePath) restore ->
           getArchiveFileSizeInBytes env archivePath = Normal size ->
           In (EvExtractTar archivePath m) restore)
     /\ (forall cachePaths archiveFolder,
           entered cachePaths archiveFolder ->
           In (EvCreateTar archiveFolder cachePaths m) save))
  /\ (customCompression = None \/ customCompression = Some "none" ->
     (forall archivePath m', ~ In (EvExtractTar archivePath m') restore)
     /\ (forall f p m', ~ In (EvCreateTar f p m') save)
     /\ (platform env <> "win32" ->
         (forall archivePath size,
            In (EvGetArchiveFileSizeInBytes archivePath) restore ->
            getArchiveFileSizeInBytes env archivePath = Normal size ->
            In (EvExecSync
                  ("tar -xf " ++ archivePath ++ " -P -C " ++ baseDir env
                     ++ " ")
                  false) restore)
         /\ (forall cachePaths archiveFolder,
               entered cachePaths archiveFolder ->
               let archivePath :=
                 path_join env archiveFolder (getCacheFileName env m) in
               In (EvExecSync
                     ("tar --posix -cf " ++ archivePath ++ " --exclude "
                        ++ archivePath ++ " -P -C " ++ baseDir env ++ " "
                        ++ JS.join " " cachePaths ++ " ")
                     false) save))
     /\ (platform env = "win32" ->
         forall tarPath,
           getTarPath env = Normal tarPath ->
           (forall archivePath size,
              In (EvGetArchiveFileSizeInBytes archivePath) restore ->
              getArchiveFileSizeInBytes env archivePath = Normal size ->
              In (EvExecSync
                    (quoted tarPath ++ " "
                       ++ JS.join " "
                            ["-xf"; quoted (toTarPath archivePath);
                             "-P";
                             "-C"; quoted (toTarPath (baseDir env))])
                    true) restore)
           /\ (forall cachePaths archiveFolder,
                 entered cachePaths archiveFolder ->
                 let archivePath :=
                   path_join env archiveFolder (getCacheFileName env m) in
                 In (EvExecSync
                       (quoted tarPath ++ " "
                          ++ JS.join " "
                               ["--posix";
                                "-cf"; quoted (toTarPath archivePath);
                                "--exclude"; quoted (toTarPath archivePath);
                                "-P";
                                "-C"; quoted (toTarPath (baseDir env))]
                          ++ " "
                          ++ JS.join " "
                               (map (fun p => quoted (toTarPath p))
                                    cachePaths))
                       true) save))).
Proof.
  intros m restore save entered. subst restore save entered. cbv beta.
  assert (Hrestore_bad : forall ev,
    restore_input_ok paths primaryKey restoreKeys = false ->
    In ev (trace (snd (restoreCache env paths primaryKey restoreKeys options
                         enableCrossOsArchive customCompression init))) ->
    is_log ev = true).
  { intros ev. apply restoreCache_rejected_trace. }
  pose proof (saveCache_cases env paths key uploadOptions
                enableCrossOsArchive customCompression) as Hsave.
  pose proof (restoreCache_enters_try env paths primaryKey restoreKeys options
                enableCrossOsArchive customCompression init) as Hr.
  pose proof (fun cps dir =>
                saveCache_enters_try env paths key uploadOptions
                  enableCrossOsArchive customCompression cps dir) as Hs.
  cbv zeta in Hs. fold m in Hr, Hs.
  split.
  - intros Hcc.
    assert (Hempty : JS.default_param "none" customCompression = "").
    { rewrite Hcc. reflexivity. }
    rewrite Hempty in Hr, Hs.
    split; [|split].
    + intros command i. split.
      * destruct (restore_input_ok paths primaryKey restoreKeys) eqn:Hok.
        -- rewrite (Hr eq_refl). apply restore_guarded_internal.
        -- intros Hin. apply (Hrestore_bad _ eq_refl) in Hin.
           discriminate Hin.
      * destruct Hsave as [(cps & dir & Hok & Hres & Hne & Htmp)|Hpre].
        -- rewrite (Hs cps dir Hok Hres Hne Htmp).
           apply save_guarded_internal.
        -- intros Hin. apply Hpre in Hin. discriminate Hin.
    + intros archivePath size.
      destruct (restore_input_ok paths primaryKey restoreKeys) eqn:Hok.
      * rewrite (Hr eq_refl). apply restore_guarded_internal.
      * intros Hin. apply (Hrestore_bad _ eq_refl) in Hin. discriminate Hin.
    + intros cps dir (Hok & Hres & Hne & Htmp).
      rewrite (Hs cps dir Hok Hres Hne Htmp). apply save_guarded_internal.
  - intros Hcc.
    assert (Hnone : JS.default_param "none" customCompression = "none").
    { destruct Hcc as [->| ->]; reflexivity. }
    rewrite Hnone in Hr, Hs.
    split; [|split; [|split]].
    + intros archivePath m'.
      destruct (restore_input_ok paths primaryKey restoreKeys) eqn:Hok.
      * rewrite (Hr eq_refl). apply restore_guarded_external.
      * intros Hin. apply (Hrestore_bad _ eq_refl) in Hin. discriminate Hin.
    + intros f p m'.
      destruct Hsave as [(cps & dir & Hok & Hres & Hne & Htmp)|Hpre].
      * rewrite (Hs cps dir Hok Hres Hne Htmp).
        apply save_guarded_external.
      * intros Hin. apply Hpre in Hin. discriminate Hin.
    + intros Hposix. split.
      * intros archivePath size.
        destruct (restore_input_ok paths primaryKey restoreKeys) eqn:Hok.
        -- rewrite (Hr eq_refl).
           apply (proj1 (proj2 (restore_guarded_external _ _ _ _ _ _))
                    Hposix).
        -- intros Hin. apply (Hrestore_bad _ eq_refl) in Hin.
           discriminate Hin.
      * intros cps dir (Hok & Hres & Hne & Htmp). cbv zeta.
        rewrite (Hs cps dir Hok Hres Hne Htmp).
        apply (proj1 (proj2 (save_guarded_external _ _ _ _ _ _ _ _))
                 Hposix).
    + intros Hwin tarPath Htar. split.
      * intros archivePath size Hin Hsize. revert Hin.
        destruct (restore_input_ok paths primaryKey restoreKeys) eqn:Hok.
        -- rewrite (Hr eq_refl). intros Hin.
           apply (proj2 (proj2 (restore_guarded_external _ _ _ _ _ _))
                    Hwin archivePath size tarPath Hin Hsize Htar).
        -- intros Hin. apply (Hrestore_bad _ eq_refl) in Hin.
           discriminate Hin.
      * intros cps dir (Hok & Hres & Hne & Htmp). cbv zeta.
        rewrite (Hs cps dir Hok Hres Hne Htmp).
        apply (proj2 (proj2 (save_guarded_external _ _ _ _ _ _ _ _))
                 Hwin tarPath Htar).
Qed.

(** * Further properties of the module *)

(** ** Path conversion *)

Lemma toTarPath_cons (c : ascii) (rest : string) :
  toTarPath (String c rest)
  = String (if Ascii.eqb c "\" then "/"%char else c) (toTarPath rest).
Proof.
  unfold toTarPath. cbn [list_ascii_of_string map string_of_list_ascii].
  reflexivity.
Qed.

(** X1: [toTarPath] leaves no backslash in its result and keeps the length
    of the path; it changes nothing in a path without backslash, so applying
    it twice is applying it once. *)
Theorem toTarPath_slashes (p : string) :
  ~ In "\"%char (list_ascii_of_string (toTarPath p))
  /\ String.length (toTarPath p) = String.length p
  /\ (~ In "\"%char (list_ascii_of_string p) -> toTarPath p = p)
  /\ toTarPath (toTarPath p) = toTarPath p.
Proof.
  assert (Hclean : forall q,
            ~ In "\"%char (list_ascii_of_string (toTarPath q))).
  { induction q as [|c rest IH]; [intros []|].
    rewrite toTarPath_cons. cbn [list_ascii_of_string In].
    intros [H|H]; [|exact (IH H)].
    destruct (Ascii.eqb_spec c "\") as [->|Hc]; [discriminate H|].
    congruence. }
  assert (Hid : forall q,
            ~ In "\"%char (list_ascii_of_string q) -> toTarPath q = q).
  { induction q as [|c rest IH]; [reflexivity|].
    cbn [list_ascii_of_string In]. intros H. rewrite toTarPath_cons.
    destruct (Ascii.eqb_spec c "\") as [->|Hc].
    - exfalso. apply H. left. reflexivity.
    - f_equal. apply IH. intros Hin. apply H. right. exact Hin. }
  split; [apply Hclean|]. split; [|split].
  - induction p as [|c rest IH]; [reflexivity|].
    rewrite toTarPath_cons. cbn [String.length]. rewrite IH. reflexivity.
  - apply Hid.
  - apply Hid, Hclean.
Qed.

(** ** Validation of the single-key pipelines *)

Lemma single_key_input_bad (paths : option (list string)) (key : string) :
  single_key_input_ok paths key = false <->
  paths = None \/ paths = Some []
  \/ 512 < String.length key \/ In ","%char (list_ascii_of_string key).
Proof.
  unfold single_key_input_ok.
  rewrite andb_false_iff, negb_false_iff, valid_key_spec.
  split.
  - intros [Hp|[H|H]]; auto.
    destruct paths as [[|p ps]|]; cbn in Hp; try discriminate Hp; auto.
  - intros [->|[->|[H|H]]]; auto.
Qed.

Lemma single_key_input_good (paths : option (list string)) (key : string) :
  single_key_input_ok paths key = true ->
  paths_missing paths = false /\ valid_key key = true.
Proof.
  unfold single_key_input_ok. rewrite andb_true_iff, negb_true_iff. auto.
Qed.

(** X2: [restoreCacheSync] throws a [ValidationError] before any call to the
    remote service exactly when the path set is absent or empty, or the
    primary key is longer than 512 characters or contains a comma. *)
Theorem restoreCacheSync_validation (env : Env) paths primaryKey options :
  let run := restoreCacheSync env paths primaryKey options init in
  (paths = None \/ paths = Some []
   \/ 512 < String.length primaryKey
   \/ In ","%char (list_ascii_of_string primaryKey))
  <->
  (exists msg, fst run = Throw (ValidationError msg)
     /\ forall ev, In ev (trace (snd run)) -> is_network_call ev = false).
Proof.
  intros run. subst run. rewrite <- single_key_input_bad.
  destruct (single_key_input_ok paths primaryKey) eqn:Hok.
  - split; [intros H; discriminate H|].
    intros (msg & _ & Hquiet). exfalso.
    rewrite (restoreCacheSync_enters_try _ _ _ _ _ Hok) in Hquiet.
    assert (Hin : In (EvGetCacheEntrySync primaryKey (array_of paths))
                     (trace (snd (try_catch
                        (restoreCacheSync_try env (array_of paths) primaryKey
                           options)
                        restore_catch (restoreSync_entry init))))).
    { unfold_pipeline. case_all; in_trace. }
    apply Hquiet in Hin. discriminate Hin.
  - split; [intros _|reflexivity].
    apply andb_false_iff in Hok. rewrite negb_false_iff in Hok.
    assert (Hrun : exists msg s,
              restoreCacheSync env paths primaryKey options init
                = (Throw (ValidationError msg), s)
              /\ forall ev, In ev (trace s) -> is_network_call ev = false).
    { unfold restoreCacheSync, checkPaths.
      destruct (paths_missing paths) eqn:Hp.
      - do 2 eexists. split; [reflexivity|]. intros ev [].
      - destruct Hok as [H|Hk]; [discriminate H|].
        unfold bind at 1. unfold ret at 1.
        unfold bind at 1. unfold debug at 1, log, call.
        unfold bind at 1.
        destruct (checkKey_fail primaryKey
                    (record_event (EvLog Debug "Resolved Keys:") init) Hk)
          as [msg ->].
        do 2 eexists. split; [reflexivity|].
        unfold record_event, init. cbn [trace app].
        intros ev H. all_events H. }
    destruct Hrun as (msg & s & -> & Hquiet).
    exists msg. split; [reflexivity | exact Hquiet].
Qed.

(** A valid input takes [saveCache] and [saveCacheSync] to the resolution of
    the paths. *)
Lemma save_reaches_resolution (env : Env) paths key options x cc :
  single_key_input_ok paths key = true ->
  In (EvResolvePaths (array_of paths))
     (trace (snd (saveCache env paths key options x cc init)))
  /\ In (EvResolvePaths (array_of paths))
        (trace (snd (saveCacheSync env paths key init))).
Proof.
  intros Hok. destruct (single_key_input_good _ _ Hok) as [Hp Hk].
  split.
  - unfold saveCache, checkPaths. rewrite Hp. unfold_pipeline.
    rewrite (checkKey_ok _ _ Hk). case_all; in_trace.
  - unfold saveCacheSync, checkPaths. rewrite Hp. unfold_pipeline.
    rewrite (checkKey_ok _ _ Hk). case_all; in_trace.
Qed.

(** [checkKey] on a key it rejects. *)
Lemma checkKey_rejects (key : string) (s : State) :
  valid_key key = false ->
  checkKey key s = (Throw (ValidationError (checkKey_message key)), s).
Proof.
  unfold valid_key, checkKey, checkKey_message.
  rewrite andb_false_iff, Nat.leb_gt.
  destruct (Nat.ltb_spec 512 (String.length key)) as [Hlt|Hge].
  - reflexivity.
  - intros [H|H]; [lia|]. rewrite H. reflexivity.
Qed.

(** An invalid input stops [saveCache] and [saveCacheSync] at their
    validators. *)
Lemma save_rejects (env : Env) paths key options x cc :
  single_key_input_ok paths key = false ->
  exists msg,
    (fst (saveCache env paths key options x cc init)
       = Throw (ValidationError msg)
     /\ forall ev,
          In ev (trace (snd (saveCache env paths key options x cc init))) ->
          is_log ev = true)
    /\ (fst (saveCacheSync env paths key init) = Throw (ValidationError msg)
        /\ forall ev,
             In ev (trace (snd (saveCacheSync env paths key init))) ->
             is_log ev = true).
Proof.
  intros Hok. apply andb_false_iff in Hok. rewrite negb_false_iff in Hok.
  unfold saveCache, saveCacheSync, checkPaths.
  destruct (paths_missing paths) eqn:Hp.
  - eexists. split; (split; [reflexivity|]);
      unfold bind, throw, ret, info, log, call, record_event, init;
      cbn [fst snd trace app]; intros ev H; all_events H.
  - destruct Hok as [H|Hk]; [discriminate H|].
    unfold bind, info, log, call, ret.
    pose proof (checkKey_rejects key
                  (record_event (EvLog Info "Saving Cache via archive.") init)
                  Hk) as Ha.
    pose proof (checkKey_rejects key
                  (record_event (EvLog Info "Saving Cache via sync.") init)
                  Hk) as Hs.
    rewrite Ha, Hs. exists (checkKey_message key).
    split; (split; [reflexivity|]);
      unfold record_event, init; cbn [fst snd trace app];
      intros ev H; all_events H.
Qed.

(** X3: [saveCache] and [saveCacheSync] throw a [ValidationError] when
    nothing but logging has happened (no path resolution, no call to the
    remote service) exactly when the path set is absent or empty, or the key
    is longer than 512 characters or contains a comma. *)
Theorem save_validation (env : Env) paths key options enableCrossOsArchive
    customCompression :
  let run := saveCache env paths key options enableCrossOsArchive
               customCompression init in
  let runSync := saveCacheSync env paths key init in
  let rejected :=
    paths = None \/ paths = Some []
    \/ 512 < String.length key
    \/ In ","%char (list_ascii_of_string key) in
  (rejected <->
   exists msg, fst run = Throw (ValidationError msg)
     /\ forall ev, In ev (trace (snd run)) -> is_log ev = true)
  /\ (rejected <->
      exists msg, fst runSync = Throw (ValidationError msg)
        /\ forall ev, In ev (trace (snd runSync)) -> is_log ev = true).
Proof.
  intros run runSync rejected. subst run runSync rejected.
  rewrite <- single_key_input_bad.
  destruct (single_key_input_ok paths key) eqn:Hok.
  - destruct (save_reaches_resolution env paths key options
                enableCrossOsArchive customCompression Hok) as [Ha Hs].
    split; (split; [intros H; discriminate H|]);
      intros (msg & _ & Hquiet); exfalso.
    + apply Hquiet in Ha. discriminate Ha.
    + apply Hquiet in Hs. discriminate Hs.
  - destruct (save_rejects env paths key options enableCrossOsArchive
                customCompression Hok) as (msg & Ha & Hs).
    split; (split; [intros _|reflexivity]); exists msg; assumption.
Qed.

(** ** The sync mode *)

(** X4: the sync-mode pipelines never touch an archive: no run of
    [restoreCacheSync] or [saveCacheSync] creates a temporary directory,
    measures, lists, builds, extracts or deletes an archive, starts an
    external process, or makes an archive-mode request to the remote
    service. *)
Theorem sync_mode_never_touches_archive (env : Env) paths primaryKey options
    key :
  (forall ev,
     In ev (trace (snd (restoreCacheSync env paths primaryKey options init)))
     -> is_archive_call ev = false)
  /\ (forall ev,
        In ev (trace (snd (saveCacheSync env paths key init))) ->
        is_archive_call ev = false).
Proof.
  split; unfold_whole; case_all; intros ev H; all_events H.
Qed.

Lemma truthy_archiveLocation_some (entry : option ArtifactCacheEntry)
    (location : string) :
  truthy_archiveLocation entry = Some location ->
  exists e, entry = Some e /\ archiveLocation e = Some location
            /\ location <> "".
Proof.
  unfold truthy_archiveLocation.
  destruct entry as [e|]; [|discriminate].
  destruct (archiveLocation e) as [loc|] eqn:Hloc; [|discriminate].
  destruct loc as [|c rest]; cbn; [discriminate|].
  intros H. injection H as <-. exists e.
  split; [reflexivity|]. split; [exact Hloc | discriminate].
Qed.

Lemma truthy_archiveLocation_of (e : ArtifactCacheEntry) (location : string) :
  archiveLocation e = Some location -> location <> "" ->
  truthy_archiveLocation (Some e) = Some location.
Proof.
  intros Hloc Hne. cbn. rewrite Hloc.
  destruct location; [contradiction|reflexivity].
Qed.

(** X5: on an input that passes validation, [restoreCacheSync] first looks
    the primary key up, alone.  A miss returns [undefined] and a lookup-only
    hit returns the entry's [cacheKey], both without any download; a full
    hit asks the remote client to sync the entry's location onto the
    caller's paths, then returns the entry's [cacheKey] when that download
    completes and [undefined] when it throws an error not named
    [ValidationError]. *)
Theorem restoreCacheSync_outcomes (env : Env) paths primaryKey options :
  let run := restoreCacheSync env paths primaryKey options init in
  let lookup := backend_getCacheEntrySync env primaryKey (array_of paths) in
  let downloads ev :=
    match ev with EvDownloadCacheSync _ _ => true | _ => false end in
  single_key_input_ok paths primaryKey = true ->
  (exists rest,
     trace (snd run)
     = EvLog Debug "Resolved Keys:"
         :: EvGetCacheEntrySync primaryKey (array_of paths) :: rest)
  /\ (forall entry,
        lookup = Normal entry ->
        truthy_archiveLocation entry = None ->
        fst run = Normal None /\ existsb downloads (trace (snd run)) = false)
  /\ (forall e location,
        lookup = Normal (Some e) ->
        archiveLocation e = Some location ->
        location <> "" ->
        (truthy_lookupOnly options = true ->
         fst run = Normal (cacheKey e)
         /\ existsb downloads (trace (snd run)) = false)
        /\ (truthy_lookupOnly options = false ->
            In (EvDownloadCacheSync location (array_of paths))
               (trace (snd run))
            /\ (backend_downloadCacheSync env location (array_of paths)
                  = Normal tt ->
                fst run = Normal (cacheKey e))
            /\ (forall err,
                  backend_downloadCacheSync env location (array_of paths)
                    = Throw err ->
                  JS.name err <> "ValidationError" ->
                  fst run = Normal None))).
Proof.
  intros run lookup downloads Hok. subst run lookup downloads.
  rewrite (restoreCacheSync_enters_try _ _ _ _ _ Hok).
  split; [|split].
  - unfold_pipeline. case_all; eexists; reflexivity.
  - intros entry Hlookup Hloc. unfold_pipeline.
    rewrite Hlookup. cbn [trace var_archivePath app fst snd].
    rewrite Hloc. split; reflexivity.
  - intros e location Hlookup Hloc Hne.
    pose proof (truthy_archiveLocation_of e location Hloc Hne) as Ht.
    split.
    + intros Honly. unfold_pipeline.
      rewrite Hlookup. cbn [trace var_archivePath app fst snd].
      rewrite Ht, Honly. split; reflexivity.
    + intros Honly. unfold_pipeline.
      rewrite Hlookup. cbn [trace var_archivePath app fst snd].
      rewrite Ht, Honly. cbn [trace var_archivePath app fst snd].
      split; [|split].
      * case_all; in_trace.
      * intros Hd. rewrite Hd. reflexivity.
      * intros err Hd Hname. rewrite Hd.
        cbn [trace var_archivePath app fst snd].
        apply String.eqb_neq in Hname. rewrite Hname. reflexivity.
Qed.

(** ** What the upload of a save receives *)


(** X7: [saveCache] and [saveCacheSync] return nothing but 1 and -1, and
    they return 1 only when the upload was called and completed. *)
Theorem save_returns_one_or_sentinel (env : Env) paths key options
    enableCrossOsArchive customCompression v :
  let m := getCompressionMethod env
             (JS.default_param "none" customCompression) in
  let x := JS.default_param false enableCrossOsArchive in
  let run := saveCache env paths key options enableCrossOsArchive
               customCompression init in
  let runSync := saveCacheSync env paths key init in
  (fst run = Normal v ->
   v = (-1)%Z
   \/ (v = 1%Z
       /\ exists archivePath size,
            In (EvBackendSaveCache key (array_of paths) archivePath m x size)
               (trace (snd run))
            /\ backend_saveCache env key (array_of paths) archivePath m x
                 size = Normal tt))
  /\ (fst runSync = Normal v ->
      v = (-1)%Z
      \/ (v = 1%Z
          /\ In (EvBackendSaveCacheSync key (array_of paths))
                (trace (snd runSync))
          /\ backend_saveCacheSync env key (array_of paths) = Normal tt)).
Proof.
  intros m x run runSync. subst m x run runSync. split.
  - unfold_whole. case_all; intros H;
      first [ discriminate H
            | injection H as <-;
              first [ left; reflexivity
                    | right; split; [reflexivity|];
                      do 2 eexists; split; [in_trace|];
                      match goal with
                      | Hu : backend_saveCache _ _ _ _ _ _ _ = Normal ?u
                        |- _ => destruct u; exact Hu
                      end ] ].
  - unfold_whole. case_all; intros H;
      first [ discriminate H
            | injection H as <-;
              first [ left; reflexivity
                    | right; split; [reflexivity|]; split; [in_trace|];
                      repeat match goal with
                             | u : unit |- _ => destruct u
                             end;
                      reflexivity ] ].
Qed.

(** ** Failures before the guarded block of a save *)

(** X8: what fails before the [try] block of a save is not swallowed.  On an
    input that passes validation, an error thrown by the path resolver makes
    [saveCache] and [saveCacheSync] throw that very error, whatever its
    name, and an error thrown by the creation of the temporary directory
    makes [saveCache] throw that very error; in both cases nothing is
    built, uploaded or deleted. *)
Theorem save_prelude_errors_propagate (env : Env) paths key options
    enableCrossOsArchive customCompression e :
  let run := saveCache env paths key options enableCrossOsArchive
               customCompression init in
  let runSync := saveCacheSync env paths key init in
  single_key_input_ok paths key = true ->
  (resolvePaths env (array_of paths) = Throw e ->
   fst run = Throw e /\ fst runSync = Throw e
   /\ (forall ev, In ev (trace (snd run)) -> is_save_prelude ev = true)
   /\ (forall ev, In ev (trace (snd runSync)) -> is_save_prelude ev = true))
  /\ (forall cachePaths,
        resolvePaths env (array_of paths) = Normal cachePaths ->
        cachePaths <> [] ->
        createTempDirectory env = Throw e ->
        fst run = Throw e
        /\ (forall ev, In ev (trace (snd run)) -> is_save_prelude ev = true)).
Proof.
  intros run runSync Hok. subst run runSync.
  destruct (single_key_input_good _ _ Hok) as [Hp Hk].
  split.
  - intros Hres. unfold saveCache, saveCacheSync, checkPaths.
    rewrite Hp. unfold_pipeline. rewrite !(checkKey_ok _ _ Hk), Hres.
    cbn [trace var_archivePath app fst snd].
    repeat split; intros ev H; all_events H.
  - intros cachePaths Hres Hne Htmp. unfold saveCache, checkPaths.
    rewrite Hp. unfold_pipeline. rewrite !(checkKey_ok _ _ Hk), Hres.
    cbn [trace var_archivePath app fst snd].
    rewrite (nonempty_length _ Hne), Htmp.
    cbn [trace var_archivePath app fst snd].
    split; [reflexivity|]. intros ev H; all_events H.
Qed.

(** ** The single deletion of a restore *)

(** What the [try] and [catch] blocks of [restoreCache] leave behind: no
    deletion yet, and a local [archivePath] that is the archive's path when
    the temporary directory was created and the empty string otherwise. *)
Lemma restore_before_finally (env : Env) keys paths options x cc m :
  let s1 := snd (try_catch (restoreCache_try env keys paths options x cc m)
                   restore_catch (restore_entry keys init)) in
  (forall q, ~ In (EvUnlinkFile q) (trace s1))
  /\ ((exists tempDirectory,
         createTempDirectory env = Normal tempDirectory
         /\ In EvCreateTempDirectory (trace s1)
         /\ var_archivePath s1
            = path_join env tempDirectory (getCacheFileName env m))
      \/ (var_archivePath s1 = ""
          /\ (~ In EvCreateTempDirectory (trace s1)
              \/ exists e, createTempDirectory env = Throw e))).
Proof.
  unfold_pipeline. case_all;
    (split; [intros q; not_in_trace|]);
    first [ left; eexists; split; [reflexivity|];
            split; [in_trace | reflexivity]
          | right; split; [reflexivity|];
            first [ left; not_in_trace | right; eexists; reflexivity ] ].
Qed.

(** X9: every run of [restoreCache] that passes validation calls
    [unlinkFile] exactly once, as its last call (followed only by the debug
    line that logs a failed deletion).  The path it deletes is the archive's
    path when the temporary directory was created; on every other exit (a
    miss, a lookup-only hit, a failed lookup, a temporary directory that
    could not be created) it is the empty string. *)
Theorem restoreCache_unlinks_once (env : Env) paths primaryKey restoreKeys
    options enableCrossOsArchive customCompression :
  let m := getCompressionMethod env
             (JS.default_param "none" customCompression) in
  let run := restoreCache env paths primaryKey restoreKeys options
               enableCrossOsArchive customCompression init in
  restore_input_ok paths primaryKey restoreKeys = true ->
  exists before p after,
    trace (snd run) = (before ++ EvUnlinkFile p :: after)%list
    /\ (forall q, ~ In (EvUnlinkFile q) before)
    /\ (after = []
        \/ exists e,
             unlinkFile env p = Throw e
             /\ after = [EvLog Debug ("Failed to delete archive: "
                                       ++ JS.Error_toString e)])
    /\ ((exists tempDirectory,
           createTempDirectory env = Normal tempDirectory
           /\ In EvCreateTempDirectory before
           /\ p = path_join env tempDirectory (getCacheFileName env m))
        \/ (p = ""
            /\ (~ In EvCreateTempDirectory before
                \/ exists e, createTempDirectory env = Throw e))).
Proof.
  intros m run Hok. subst run.
  rewrite (restoreCache_enters_try _ _ _ _ _ _ _ _ Hok). fold m.
  pose proof (restore_before_finally env
                (primaryKey :: JS.default_param [] restoreKeys)
                (array_of paths) options
                (JS.default_param false enableCrossOsArchive)
                (JS.default_param "none" customCompression) m)
    as [Hnone Hpath].
  unfold restoreCache_guarded, try_finally.
  destruct (try_catch _ restore_catch _) as [c s1].
  cbn [snd] in Hnone, Hpath. unfold bind, read_archivePath.
  exists (trace s1), (var_archivePath s1).
  destruct (delete_archive_total env (var_archivePath s1) s1)
    as (s2 & -> & _ & [[_ Ht]|(e & He & Ht)]); cbn [snd]; rewrite Ht.
  - exists []. split; [reflexivity|]. split; [exact Hnone|].
    split; [left; reflexivity | exact Hpath].
  - eexists. split; [reflexivity|]. split; [exact Hnone|].
    split; [right; exists e; split; [exact He | reflexivity] | exact Hpath].
Qed.

(** ** A custom compression program *)

Lemma custom_identifier_tests (cc : string) :
  cc <> "" -> cc <> "none" ->
  JS.truthy cc = true /\ String.eqb cc "none" = false.
Proof.
  intros Hne Hnone. split.
  - destruct cc; [contradiction|reflexivity].
  - apply String.eqb_neq, Hnone.
Qed.

Lemma restore_guarded_custom (env : Env) keys paths options x m cc :
  cc <> "" -> cc <> "none" ->
  let t := trace (snd (restoreCache_guarded env keys paths options x cc m
                         (restore_entry keys init))) in
  (forall ev, In ev t ->
     match ev with
     | EvExtractTar _ _ | EvCreateTar _ _ _ | EvListTar _ _ => False
     | _ => True
     end)
  /\ (platform env <> "win32" ->
      forall archivePath size,
        In (EvGetArchiveFileSizeInBytes archivePath) t ->
        getArchiveFileSizeInBytes env archivePath = Normal size ->
        In (EvExecSync
              ("tar -xf " ++ archivePath ++ " -P -C " ++ baseDir env
                 ++ " --use-compress-program=" ++ cc)
              false) t)
  /\ (platform env = "win32" ->
      forall archivePath size tarPath,
        In (EvGetArchiveFileSizeInBytes archivePath) t ->
        getArchiveFileSizeInBytes env archivePath = Normal size ->
        getTarPath env = Normal tarPath ->
        In (EvExecSync
              (quoted tarPath ++ " "
                 ++ JS.join " " ["--use-compress-program=" ++ quoted "lz4.exe";
                                 "-xf"; quoted (toTarPath archivePath);
                                 "-P";
                                 "-C"; quoted (toTarPath (baseDir env))])
              true) t).
Proof.
  intros Hne Hnone.
  destruct (custom_identifier_tests cc Hne Hnone) as [Htruthy Heqb].
  destruct (String.eqb_spec (platform env) "win32") as [Hw|Hw].
  - unfold_pipeline. rewrite Htruthy, Heqb, (proj2 (String.eqb_eq _ _) Hw).
    cbn [andb negb app trace var_archivePath fst snd].
    destruct (getTarPath env) as [tp|err] eqn:Htp; case_all;
      (split; [intros ev H; split_in H;
               first [contradiction | subst; exact I]|]);
      (split; [intros Hc; contradiction|]);
      intros _ ap size tarPath H Hs Ht;
      first [discriminate Ht | injection Ht as <-]; by_trace H.
  - unfold_pipeline. rewrite Htruthy, Heqb, (proj2 (String.eqb_neq _ _) Hw).
    cbn [andb negb app trace var_archivePath fst snd].
    case_all;
      (split; [intros ev H; split_in H;
               first [contradiction | subst; exact I]|]);
      (split; [|intros Hc; contradiction]);
      intros _ ap size H Hs; by_trace H.
Qed.

Lemma save_guarded_custom (env : Env) paths key x m cc cachePaths
    archiveFolder archivePath :
  cc <> "" -> cc <> "none" ->
  let t := trace (snd (saveCache_guarded env (-1) paths key x cc m cachePaths
                         archiveFolder archivePath
                         (save_entry paths cachePaths archivePath))) in
  (forall ev, In ev t ->
     match ev with
     | EvExtractTar _ _ | EvCreateTar _ _ _ | EvListTar _ _ => False
     | _ => True
     end)
  /\ (platform env <> "win32" ->
      In (EvExecSync
            ("tar --posix -cf " ++ archivePath ++ " --exclude " ++ archivePath
               ++ " -P -C " ++ baseDir env ++ " " ++ JS.join " " cachePaths
               ++ " --use-compress-program=" ++ cc)
            false) t)
  /\ (platform env = "win32" ->
      forall tarPath,
        getTarPath env = Normal tarPath ->
        In (EvExecSync
              (quoted tarPath ++ " "
                 ++ JS.join " " ["--posix";
                                 "--use-compress-program=" ++ quoted "lz4.exe";
                                 "-cf"; quoted (toTarPath archivePath);
                                 "--exclude"; quoted (toTarPath archivePath);
                                 "-P";
                                 "-C"; quoted (toTarPath (baseDir env))]
                 ++ " "
                 ++ JS.join " "
                      (map (fun p => quoted (toTarPath p)) cachePaths))
              true) t).
Proof.
  intros Hne Hnone.
  destruct (custom_identifier_tests cc Hne Hnone) as [Htruthy Heqb].
  destruct (String.eqb_spec (platform env) "win32") as [Hw|Hw].
  - unfold_pipeline. unfold save_entry.
    rewrite Htruthy, Heqb, (proj2 (String.eqb_eq _ _) Hw).
    cbn [andb negb app trace var_archivePath fst snd].
    destruct (getTarPath env) as [tp|err] eqn:Htp; case_all;
      (split; [intros ev H; split_in H;
               first [contradiction | subst; exact I]|]);
      (split; [intros Hc; contradiction|]);
      intros _ tarPath Ht;
      first [discriminate Ht | injection Ht as <-]; in_trace.
  - unfold_pipeline. unfold save_entry.
    rewrite Htruthy, Heqb, (proj2 (String.eqb_neq _ _) Hw).
    cbn [andb negb app trace var_archivePath fst snd].
    case_all;
      (split; [intros ev H; split_in H;
               first [contradiction | subst; exact I]|]);
      (split; [|intros Hc; contradiction]);
      intros _; in_trace.
Qed.

(** X10: with a custom compression program (an identifier that is neither
    empty nor ["none"]), neither restore nor save ever calls the internal
    codec or lists the archive; off Windows, a restore that has measured the
    archive extracts it with [tar ... --use-compress-program=<identifier>],
    and a save that entered its [try] block builds it with
    [tar --posix ... --use-compress-program=<identifier>]. *)
Theorem custom_program_posix (env : Env) paths primaryKey restoreKeys options
    enableCrossOsArchive key uploadOptions cc :
  let m := getCompressionMethod env cc in
  let restore := trace (snd (restoreCache env paths primaryKey restoreKeys
                               options enableCrossOsArchive (Some cc) init)) in
  let save := trace (snd (saveCache env paths key uploadOptions
                            enableCrossOsArchive (Some cc) init)) in
  cc <> "" -> cc <> "none" ->
  (forall ev, In ev restore \/ In ev save ->
     match ev with
     | EvExtractTar _ _ | EvCreateTar _ _ _ | EvListTar _ _ => False
     | _ => True
     end)
  /\ (platform env <> "win32" ->
      (forall archivePath size,
         In (EvGetArchiveFileSizeInBytes archivePath) restore ->
         getArchiveFileSizeInBytes env archivePath = Normal size ->
         In (EvExecSync
               ("tar -xf " ++ archivePath ++ " -P -C " ++ baseDir env
                  ++ " --use-compress-program=" ++ cc)
               false) restore)
      /\ (forall cachePaths archiveFolder,
            single_key_input_ok paths key = true ->
            resolvePaths env (array_of paths) = Normal cachePaths ->
            cachePaths <> [] ->
            createTempDirectory env = Normal archiveFolder ->
            let archivePath :=
              path_join env archiveFolder (getCacheFileName env m) in
            In (EvExecSync
                  ("tar --posix -cf " ++ archivePath ++ " --exclude "
                     ++ archivePath ++ " -P -C " ++ baseDir env ++ " "
                     ++ JS.join " " cachePaths
                     ++ " --use-compress-program=" ++ cc)
                  false) save)).
Proof.
  intros m restore save Hne Hnone. subst restore save.
  pose proof (restoreCache_enters_try env paths primaryKey restoreKeys options
                enableCrossOsArchive (Some cc) init) as Hr.
  pose proof (fun cps dir =>
                saveCache_enters_try env paths key uploadOptions
                  enableCrossOsArchive (Some cc) cps dir) as Hs.
  cbv zeta in Hs. cbn [JS.default_param] in Hr, Hs. fold m in Hr, Hs.
  split.
  - intros ev [Hin|Hin].
    + destruct (restore_input_ok paths primaryKey restoreKeys) eqn:Hok.
      * rewrite (Hr eq_refl) in Hin.
        pose proof (proj1 (restore_guarded_custom env _ _ _ _ m cc Hne Hnone)
                      ev Hin) as Hev.
        destruct ev; first [exact I | exact Hev].
      * apply (restoreCache_rejected_trace _ _ _ _ _ _ _ _ Hok) in Hin.
        destruct ev; first [exact I | discriminate Hin].
    + destruct (saveCache_cases env paths key uploadOptions
                  enableCrossOsArchive (Some cc))
        as [(cps & dir & Hok & Hres & Hnil & Htmp)|Hpre].
      * rewrite (Hs cps dir Hok Hres Hnil Htmp) in Hin.
        pose proof (proj1 (save_guarded_custom env _ _ _ m cc _ _ _ Hne Hnone)
                      ev Hin) as Hev.
        destruct ev; first [exact I | exact Hev].
      * apply Hpre in Hin. destruct ev; first [exact I | discriminate Hin].
  - intros Hposix. split.
    + intros archivePath size.
      destruct (restore_input_ok paths primaryKey restoreKeys) eqn:Hok.
      * rewrite (Hr eq_refl).
        apply (proj1 (proj2 (restore_guarded_custom env _ _ _ _ m cc
                               Hne Hnone)) Hposix).
      * intros Hin.
        apply (restoreCache_rejected_trace _ _ _ _ _ _ _ _ Hok) in Hin.
        discriminate Hin.
    + intros cps dir Hok Hres Hnil Htmp. cbv zeta.
      rewrite (Hs cps dir Hok Hres Hnil Htmp).
      apply (proj1 (proj2 (save_guarded_custom env _ _ _ m cc _ _ _
                             Hne Hnone)) Hposix).
Qed.

(** X11: on Windows the custom identifier only switches the compressor on:
    whatever program it names, the command line a restore or a save runs
    names [lz4.exe], with the archive path, the base directory and every
    cache path quoted and their backslashes turned into slashes. *)
Theorem custom_program_windows (env : Env) paths primaryKey restoreKeys
    options enableCrossOsArchive key uploadOptions cc tarPath :
  let m := getCompressionMethod env cc in
  let restore := trace (snd (restoreCache env paths primaryKey restoreKeys
                               options enableCrossOsArchive (Some cc) init)) in
  let save := trace (snd (saveCache env paths key uploadOptions
                            enableCrossOsArchive (Some cc) init)) in
  cc <> "" -> cc <> "none" ->
  platform env = "win32" ->
  getTarPath env = Normal tarPath ->
  (forall archivePath size,
     In (EvGetArchiveFileSizeInBytes archivePath) restore ->
     getArchiveFileSizeInBytes env archivePath = Normal size ->
     In (EvExecSync
           (quoted tarPath ++ " "
              ++ JS.join " " ["--use-compress-program=" ++ quoted "lz4.exe";
                              "-xf"; quoted (toTarPath archivePath);
                              "-P";
                              "-C"; quoted (toTarPath (baseDir env))])
           true) restore)
  /\ (forall cachePaths archiveFolder,
        single_key_input_ok paths key = true ->
        resolvePaths env (array_of paths) = Normal cachePaths ->
        cachePaths <> [] ->
        createTempDirectory env = Normal archiveFolder ->
        let archivePath :=
          path_join env archiveFolder (getCacheFileName env m) in
        In (EvExecSync
              (quoted tarPath ++ " "
                 ++ JS.join " " ["--posix";
                                 "--use-compress-program=" ++ quoted "lz4.exe";
                                 "-cf"; quoted (toTarPath archivePath);
                                 "--exclude"; quoted (toTarPath archivePath);
                                 "-P";
                                 "-C"; quoted (toTarPath (baseDir env))]
                 ++ " "
                 ++ JS.join " "
                      (map (fun p => quoted (toTarPath p)) cachePaths))
              true) save).
Proof.
  intros m restore save Hne Hnone Hwin Htar. subst restore save.
  pose proof (restoreCache_enters_try env paths primaryKey restoreKeys options
                enableCrossOsArchive (Some cc) init) as Hr.
  pose proof (fun cps dir =>
                saveCache_enters_try env paths key uploadOptions
                  enableCrossOsArchive (Some cc) cps dir) as Hs.
  cbv zeta in Hs. cbn [JS.default_param] in Hr, Hs. fold m in Hr, Hs.
  split.
  - intros archivePath size Hin Hsize. revert Hin.
    destruct (restore_input_ok paths primaryKey restoreKeys) eqn:Hok.
    + rewrite (Hr eq_refl). intros Hin.
      apply (proj2 (proj2 (restore_guarded_custom env _ _ _ _ m cc
                             Hne Hnone))
               Hwin archivePath size tarPath Hin Hsize Htar).
    + intros Hin.
      apply (restoreCache_rejected_trace _ _ _ _ _ _ _ _ Hok) in Hin.
      discriminate Hin.
  - intros cps dir Hok Hres Hnil Htmp. cbv zeta.
    rewrite (Hs cps dir Hok Hres Hnil Htmp).
    apply (proj2 (proj2 (save_guarded_custom env _ _ _ m cc _ _ _
                           Hne Hnone)) Hwin tarPath Htar).
Qed.

(** ** Listing the archive *)

Lemma restore_guarded_listing (env : Env) keys paths options x cc m :
  forall archivePath m',
    In (EvListTar archivePath m')
       (trace (snd (restoreCache_guarded env keys paths options x cc m
                      (restore_entry keys init)))) ->
    isDebug env = true /\ JS.truthy cc = false /\ m' = m
    /\ exists location,
         In (EvDownloadCache location archivePath options)
            (trace (snd (restoreCache_guarded env keys paths options x cc m
                           (restore_entry keys init))))
         /\ backend_downloadCache env location archivePath options
            = Normal tt.
Proof.
  intros archivePath m'. unfold_pipeline. case_all;
    intros H; split_in H;
    first [ contradiction
          | discriminate H
          | injection H; intros; subst;
            split; [reflexivity|]; split; [reflexivity|];
            split; [reflexivity|];
            eexists; split; [in_trace|];
            repeat match goal with
                   | u : unit |- _ => destruct u
                   end;
            assumption ].
Qed.

Lemma save_guarded_listing (env : Env) paths key x cc m cachePaths
    archiveFolder archivePath :
  forall ap m',
    In (EvListTar ap m')
       (trace (snd (saveCache_guarded env (-1) paths key x cc m cachePaths
                      archiveFolder archivePath
                      (save_entry paths cachePaths archivePath)))) ->
    isDebug env = true /\ JS.truthy cc = false /\ m' = m /\ ap = archivePath
    /\ createTar env archiveFolder cachePaths m = Normal tt.
Proof.
  intros ap m'. unfold_pipeline. unfold save_entry.
  destruct (JS.truthy cc) eqn:Ht;
    destruct (String.eqb (platform env) "win32") eqn:Hw;
    cbn [andb negb]; case_all;
    intros H; split_in H;
    first [ contradiction
          | discriminate H
          | injection H; intros; subst;
            repeat match goal with
                   | u : unit |- _ => destruct u
                   end;
            repeat split; first [reflexivity | assumption] ].
Qed.

Lemma falsy_identifier (customCompression : option string) :
  JS.truthy (JS.default_param "none" customCompression) = false ->
  customCompression = Some "".
Proof.
  destruct customCompression as [[|c rest]|]; cbn; intros H;
    first [reflexivity | discriminate H].
Qed.

(** X12: the archive is listed only in debug mode and only with the empty
    custom-compression identifier.  A restore lists the archive it has just
    downloaded, after the download completed; a save lists the archive it
    has just built, after [createTar] completed. *)
Theorem listTar_only_when_debugging (env : Env) paths primaryKey restoreKeys
    options enableCrossOsArchive customCompression key uploadOptions
    archivePath m' :
  let m := getCompressionMethod env
             (JS.default_param "none" customCompression) in
  let restore := trace (snd (restoreCache env paths primaryKey restoreKeys
                               options enableCrossOsArchive customCompression
                               init)) in
  let save := trace (snd (saveCache env paths key uploadOptions
                            enableCrossOsArchive customCompression init)) in
  (In (EvListTar archivePath m') restore ->
   isDebug env = true /\ customCompression = Some "" /\ m' = m
   /\ exists location,
        In (EvDownloadCache location archivePath options) restore
        /\ backend_downloadCache env location archivePath options
           = Normal tt)
  /\ (In (EvListTar archivePath m') save ->
      isDebug env = true /\ customCompression = Some "" /\ m' = m
      /\ exists archiveFolder cachePaths,
           archivePath = path_join env archiveFolder (getCacheFileName env m)
           /\ In (EvCreateTar archiveFolder cachePaths m) save
           /\ createTar env archiveFolder cachePaths m = Normal tt).
Proof.
  intros m restore save. subst restore save. split.
  - destruct (restore_input_ok paths primaryKey restoreKeys) eqn:Hok.
    + rewrite (restoreCache_enters_try _ _ _ _ _ _ _ _ Hok). fold m.
      intros Hin.
      destruct (restore_guarded_listing _ _ _ _ _ _ _ _ _ Hin)
        as (Hd & Hcc & Hm & Hdl).
      split; [exact Hd|]. split; [exact (falsy_identifier _ Hcc)|].
      split; [exact Hm | exact Hdl].
    + intros Hin.
      apply (restoreCache_rejected_trace _ _ _ _ _ _ _ _ Hok) in Hin.
      discriminate Hin.
  - destruct (saveCache_cases env paths key uploadOptions
                enableCrossOsArchive customCompression)
      as [(cps & dir & Hok & Hres & Hnil & Htmp)|Hpre].
    + rewrite (saveCache_enters_try env paths key uploadOptions
                 enableCrossOsArchive customCompression cps dir Hok Hres Hnil
                 Htmp).
      fold m. intros Hin.
      destruct (save_guarded_listing _ _ _ _ _ _ _ _ _ _ _ Hin)
        as (Hd & Hcc & Hm & Hap & Hct).
      pose proof (falsy_identifier _ Hcc) as Hid.
      split; [exact Hd|]. split; [exact Hid|]. split; [exact Hm|].
      exists dir, cps. split; [exact Hap|]. split; [|exact Hct].
      assert (Hempty : JS.default_param "none" customCompression = "").
      { rewrite Hid. reflexivity. }
      rewrite Hempty. apply save_guarded_internal.
    + intros Hin. apply Hpre in Hin. discriminate Hin.
Qed.

(** ** Download before extraction *)

Lemma restore_guarded_download (env : Env) keys paths options x cc m :
  let t := trace (snd (restoreCache_guarded env keys paths options x cc m
                         (restore_entry keys init))) in
  (forall location archivePath o,
     In (EvDownloadCache location archivePath o) t ->
     o = options /\ truthy_lookupOnly options = false
     /\ exists entry tempDirectory,
          backend_getCacheEntry env keys paths m x = Normal entry
          /\ truthy_archiveLocation entry = Some location
          /\ createTempDirectory env = Normal tempDirectory
          /\ archivePath
             = path_join env tempDirectory (getCacheFileName env m))
  /\ (forall ev,
        In ev t -> is_codec_call ev = true ->
        exists location archivePath,
          In (EvDownloadCache location archivePath options) t
          /\ backend_downloadCache env location archivePath options
             = Normal tt).
Proof.
  unfold_pipeline. case_all; (split;
    [ intros location archivePath o H; split_in H;
      first [ contradiction
            | discriminate H
            | injection H; intros; subst;
              split; [reflexivity|]; split; [reflexivity|];
              do 2 eexists;
              split; [reflexivity|]; split; [eassumption|];
              split; reflexivity ]
    | intros ev H Hc; split_in H;
      first [ contradiction
            | subst ev;
              first [ discriminate Hc
                    | do 2 eexists; split; [in_trace|];
                      repeat match goal with
                             | u : unit |- _ => destruct u
                             end;
                      assumption ] ] ]).
Qed.

(** X13: [restoreCache] downloads only a located entry of a run that is not
    lookup-only: every download of a run receives the [archiveLocation] of
    the entry the lookup answered, the archive path in the temporary
    directory, and the caller's options unchanged.  Nothing is extracted,
    by the internal codec or by an external process, unless a download
    completed before. *)
Theorem restoreCache_downloads_before_extracting (env : Env) paths primaryKey
    restoreKeys options enableCrossOsArchive customCompression :
  let keys := primaryKey :: JS.default_param [] restoreKeys in
  let m := getCompressionMethod env
             (JS.default_param "none" customCompression) in
  let x := JS.default_param false enableCrossOsArchive in
  let t := trace (snd (restoreCache env paths primaryKey restoreKeys options
                         enableCrossOsArchive customCompression init)) in
  (forall location archivePath o,
     In (EvDownloadCache location archivePath o) t ->
     o = options /\ truthy_lookupOnly options = false
     /\ exists e tempDirectory,
          backend_getCacheEntry env keys (array_of paths) m x
            = Normal (Some e)
          /\ archiveLocation e = Some location
          /\ location <> ""
          /\ createTempDirectory env = Normal tempDirectory
          /\ archivePath
             = path_join env tempDirectory (getCacheFileName env m))
  /\ (forall ev,
        In ev t -> is_codec_call ev = true ->
        exists location archivePath,
          In (EvDownloadCache location archivePath options) t
          /\ backend_downloadCache env location archivePath options
             = Normal tt).
Proof.
  intros keys m x t. subst t.
  destruct (restore_input_ok paths primaryKey restoreKeys) eqn:Hok.
  - rewrite (restoreCache_enters_try _ _ _ _ _ _ _ _ Hok). fold keys m x.
    destruct (restore_guarded_download env keys (array_of paths) options x
                (JS.default_param "none" customCompression) m)
      as [Hdl Hcodec].
    split; [|exact Hcodec].
    intros location archivePath o Hin.
    destruct (Hdl location archivePath o Hin)
      as (Ho & Honly & entry & dir & Hlookup & Hloc & Htmp & Hap).
    destruct (truthy_archiveLocation_some entry location Hloc)
      as (e & -> & He & Hne).
    split; [exact Ho|]. split; [exact Honly|].
    exists e, dir. repeat split; assumption.
  - split.
    + intros location archivePath o Hin.
      apply (restoreCache_rejected_trace _ _ _ _ _ _ _ _ Hok) in Hin.
      discriminate Hin.
    + intros ev Hin Hc.
      apply (restoreCache_rejected_trace _ _ _ _ _ _ _ _ Hok) in Hin.
      destruct ev; discriminate.
Qed.

(** ** Which validation error is reported *)

Lemma for_of_checkKey_first_invalid (before : list string) (k : string)
    (after : list string) (s : State) :
  forallb valid_key before = true ->
  valid_key k = false ->
  for_of (before ++ k :: after)%list checkKey s
  = (Throw (ValidationError (checkKey_message k)), s).
Proof.
  induction before as [|b rest IH]; cbn [app for_of forallb].
  - intros _ Hk. unfold bind. rewrite (checkKey_rejects _ _ Hk). reflexivity.
  - rewrite andb_true_iff. intros [Hb Hrest] Hk.
    unfold bind. rewrite (checkKey_ok _ _ Hb). apply (IH Hrest Hk).
Qed.

(** X14: [restoreCache] reports the first check that fails: a missing path
    set before anything about the keys, then the number of keys before any
    single key, then the first key of the list (primary key first) that is
    too long or contains a comma, with the length complaint taking
    precedence for a key that has both defects. *)
Theorem restoreCache_reports_first_failure (env : Env) paths primaryKey
    restoreKeys options enableCrossOsArchive customCompression :
  let keys := primaryKey :: JS.default_param [] restoreKeys in
  let outcome := fst (restoreCache env paths primaryKey restoreKeys options
                        enableCrossOsArchive customCompression init) in
  (paths_missing paths = true ->
   outcome
   = Throw (ValidationError
       "Path Validation Error: At least one directory or file path is required"))
  /\ (paths_missing paths = false ->
      10 < List.length keys ->
      outcome
      = Throw (ValidationError
          "Key Validation Error: Keys are limited to a maximum of 10."))
  /\ (paths_missing paths = false ->
      List.length keys <= 10 ->
      forall before k after,
        keys = (before ++ k :: after)%list ->
        forallb valid_key before = true ->
        valid_key k = false ->
        outcome
        = Throw (ValidationError
            ("Key Validation Error: " ++ k
               ++ (if Nat.ltb 512 (String.length k)
                   then " cannot be larger than 512 characters."
                   else " cannot contain commas.")))).
Proof.
  intros keys outcome. subst outcome keys.
  unfold restoreCache, checkPaths.
  split; [|split].
  - intros Hp. rewrite Hp. reflexivity.
  - intros Hp Hlen. rewrite Hp.
    unfold bind at 1. unfold ret at 1.
    unfold bind at 1. unfold debug at 1, log, call.
    unfold bind at 1.
    apply Nat.ltb_lt in Hlen. rewrite Hlen. reflexivity.
  - intros Hp Hlen before k after Hkeys Hbefore Hk. rewrite Hp.
    unfold bind at 1. unfold ret at 1.
    unfold bind at 1. unfold debug at 1, log, call.
    unfold bind at 1. unfold debug at 1, log, call.
    destruct (Nat.ltb_spec 10
                (List.length (primaryKey :: JS.default_param [] restoreKeys)))
      as [Hgt|_]; [lia|].
    unfold bind at 1. unfold ret at 1.
    unfold bind at 1.
    rewrite Hkeys.
    rewrite (for_of_checkKey_first_invalid _ _ _ _ Hbefore Hk).
    cbn [fst]. unfold checkKey_message.
    destruct (Nat.ltb 512 (String.length k)); reflexivity.
Qed.

(** * Concrete runs *)

(** C1, as stated, fails: with the identifier absent or equal to ["none"], a
    restore on Linux extracts through the external [tar] process and never
    calls [extractTar]; a save builds the archive through the external [tar]
    process and never calls [createTar]. *)
Lemma none_identifier_runs_external_tar :
  let restore_absent :=
    trace (snd (restoreCache Example.linux (Some ["./dist"]) "K2" None None
                  None None init)) in
  let restore_none :=
    trace (snd (restoreCache Example.linux (Some ["./dist"]) "K2" None None
                  None (Some "none") init)) in
  let save_absent :=
    trace (snd (saveCache Example.linux (Some ["./dist"]) "build-123" None
                  None None init)) in
  (In (EvExecSync "tar -xf /tmp/cache/cache.tzst -P -C /workspace " false)
      restore_absent
   /\ existsb Example.is_extractTar restore_absent = false)
  /\ (In (EvExecSync "tar -xf /tmp/cache/cache.tzst -P -C /workspace " false)
         restore_none
      /\ existsb Example.is_extractTar restore_none = false)
  /\ (In (EvExecSync
            "tar --posix -cf /tmp/cache/cache.tzst --exclude /tmp/cache/cache.tzst -P -C /workspace ./dist "
            false) save_absent
      /\ existsb Example.is_createTar save_absent = false).
Proof.
  vm_compute. repeat split; tauto.
Qed.

(** On Linux: the empty identifier extracts with the internal codec; with
    the identifier absent, a save never calls the internal codec. *)
Lemma codec_dispatch_witness :
  In (EvExtractTar "/tmp/cache/cache.tzst" "zstd")
     (trace (snd (restoreCache Example.linux (Some ["./dist"]) "K2" None None
                    None (Some "") init)))
  /\ (forall f p m',
        ~ In (EvCreateTar f p m')
            (trace (snd (saveCache Example.linux (Some ["./dist"])
                           "build-123" None None None init)))).
Proof.
  split.
  - apply (proj1 (proj2
             (proj1 (codec_dispatch Example.linux (Some ["./dist"]) "K2" None
                       None None (Some "") "build-123" None) eq_refl))
             "/tmp/cache/cache.tzst" 10%Z).
    + vm_compute. tauto.
    + reflexivity.
  - apply (proj1 (proj2
             (proj2 (codec_dispatch Example.linux (Some ["./dist"]) "K2" None
                       None None None "build-123" None)
                (or_introl eq_refl)))).
Defined.

(** A restore whose download times out returns [undefined] after a
    warning. *)
Lemma restore_suppresses_errors_witness :
  restore_input_ok (Some ["./dist"]) "K2" None = true
  /\ fst (restoreCache Example.linux_offline (Some ["./dist"]) "K2" None None
            None None init) = Normal None
  /\ In (EvLog Warning "Failed to restore: connect ETIMEDOUT")
        (trace (snd (restoreCache Example.linux_offline (Some ["./dist"])
                       "K2" None None None None init))).
Proof.
  split; [reflexivity|].
  eapply (proj2 (proj1 (restore_suppresses_errors Example.linux_offline
                          (Some ["./dist"]) "K2" None None None None)
                   eq_refl) Example.network_error).
  - vm_compute. reflexivity.
  - vm_compute. intros H; discriminate H.
Defined.

(** [save(paths = ["./dist"], key = "build-123")] returns 1; the same save
    returns -1 when the key is already reserved. *)
Lemma save_outcome_witness :
  fst (saveCache Example.linux (Some ["./dist"]) "build-123" None None None
         init) = Normal 1%Z
  /\ fst (saveCache Example.linux_conflict (Some ["./dist"]) "build-123" None
            None None init) = Normal (-1)%Z.
Proof.
  pose (s0 := save_entry ["./dist"] ["./dist"] "/tmp/cache/cache.tzst").
  split.
  - apply (proj1 (proj1 (save_outcome Example.linux (Some ["./dist"])
                           "build-123" None None None ["./dist"]
                           eq_refl eq_refl ltac:(discriminate))
                    "/tmp/cache"
                    (snd (save_archive Example.linux "/tmp/cache"
                            "/tmp/cache/cache.tzst" ["./dist"] "zstd" "none"
                            s0))
                    10%Z eq_refl eq_refl eq_refl)).
    reflexivity.
  - apply (proj2 (proj1 (save_outcome Example.linux_conflict
                           (Some ["./dist"]) "build-123" None None None
                           ["./dist"] eq_refl eq_refl ltac:(discriminate))
                    "/tmp/cache"
                    (snd (save_archive Example.linux_conflict "/tmp/cache"
                            "/tmp/cache/cache.tzst" ["./dist"] "zstd" "none"
                            s0))
                    10%Z eq_refl eq_refl eq_refl)
             (ReserveCacheError "Cache already exists")).
    + reflexivity.
    + vm_compute. intros H; discriminate H.
Defined.

(** On a runner where the archive cannot be deleted, restore and save still
    end with the attempt, and the restore still returns its key. *)
Lemma archive_cleanup_witness :
  ends_with_deletion Example.linux_readonly "/tmp/cache/cache.tzst"
    (trace (snd (restoreCache Example.linux_readonly (Some ["./dist"]) "K2"
                   None None None None init)))
  /\ fst (restoreCache Example.linux_readonly (Some ["./dist"]) "K2" None
            None None None init) = Normal (Some "K2")
  /\ ends_with_deletion Example.linux_readonly "/tmp/cache/cache.tzst"
       (trace (snd (saveCache Example.linux_readonly (Some ["./dist"])
                      "build-123" None None None init))).
Proof.
  pose proof (archive_cleanup Example.linux_readonly (Some ["./dist"]) "K2"
                None None None None "build-123" None) as (_ & Hr & Hs).
  split; [|split].
  - apply (Hr {| cacheKey := Some "K2";
                 archiveLocation := Some "https://cache.example/K2" |}
              "https://cache.example/K2" "/tmp/cache");
      first [ reflexivity | discriminate ].
  - reflexivity.
  - apply (Hs ["./dist"] "/tmp/cache"); first [ reflexivity | discriminate ].
Defined.

(** Eleven keys are rejected; a key of 512 characters is accepted. *)
Lemma restoreCache_validation_witness :
  (exists msg,
     fst (restoreCache Example.linux (Some ["./dist"]) "K1"
            (Some Example.ten_restore_keys) None None None init)
     = Throw (ValidationError msg))
  /\ checkKey Example.key512 init = (Normal tt, init).
Proof.
  split.
  - destruct (proj1 (proj1 (restoreCache_validation Example.linux
                              (Some ["./dist"]) "K1"
                              (Some Example.ten_restore_keys) None None None)))
      as (msg & Hthrow & _).
    + right; right; left. vm_compute. lia.
    + exists msg. exact Hthrow.
  - apply (proj2 (restoreCache_validation Example.linux (Some ["./dist"])
                    "K1" None None None None)).
    + reflexivity.
    + apply regex_no_comma_test_spec. vm_compute. reflexivity.
Defined.

(** [restore(paths = ["./dist"], primaryKey = "build-999", restoreKeys = [])]
    against a store with no matching entry. *)
Lemma restoreCache_miss_witness :
  fst (restoreCache Example.linux (Some ["./dist"]) "build-999" (Some [])
         None None None init) = Normal None
  /\ ~ In EvCreateTempDirectory
        (trace (snd (restoreCache Example.linux (Some ["./dist"]) "build-999"
                       (Some []) None None None init))).
Proof.
  destruct (restoreCache_miss Example.linux (Some ["./dist"]) "build-999"
              (Some []) None None None None eq_refl eq_refl
              (or_introl eq_refl)) as (Hret & _ & Htmp).
  split; [exact Hret | exact Htmp].
Defined.

(** A lookup-only restore of the stored key. *)
Lemma restoreCache_lookup_only_witness :
  fst (restoreCache Example.linux (Some ["./dist"]) "K2" None
         Example.lookup_only None None init) = Normal (Some "K2")
  /\ forall p,
       In (EvUnlinkFile p)
          (trace (snd (restoreCache Example.linux (Some ["./dist"]) "K2" None
                         Example.lookup_only None None init))) ->
       p = "".
Proof.
  destruct (restoreCache_lookup_only Example.linux (Some ["./dist"]) "K2"
              None Example.lookup_only None None
              {| cacheKey := Some "K2";
                 archiveLocation := Some "https://cache.example/K2" |}
              "https://cache.example/K2" eq_refl eq_refl eq_refl eq_refl
              ltac:(discriminate)) as (Hret & _ & _ & _ & _ & Hunlink).
  split; [exact Hret | exact Hunlink].
Defined.

(** Keys [K1; K2; K3] against a store that holds [K2] only. *)
Lemma restoreCache_lookup_order_witness :
  fst (restoreCache Example.linux (Some ["./dist"]) "K1" (Some ["K2"; "K3"])
         None None None init) = Normal (Some "K2")
  /\ exists rest,
       trace (snd (restoreCache Example.linux (Some ["./dist"]) "K1"
                     (Some ["K2"; "K3"]) None None None init))
       = EvLog Debug "Resolved Keys:"
           :: EvLog Debug (JS.JSON_stringify ["K1"; "K2"; "K3"])
           :: EvGetCacheEntry ["K1"; "K2"; "K3"] ["./dist"] "zstd" false
           :: rest.
Proof.
  destruct (restoreCache_lookup_order Example.linux (Some ["./dist"]) "K1"
              (Some ["K2"; "K3"]) None None None) as (_ & Hfirst & Hhit & _).
  split.
  - apply (Hhit {| cacheKey := Some "K2";
                   archiveLocation := Some "https://cache.example/K2" |}
                "https://cache.example/K2" (Some "K2")
                (snd (restoreCache_try Example.linux ["K1"; "K2"; "K3"]
                        ["./dist"] None false "none" "zstd"
                        (restore_entry ["K1"; "K2"; "K3"] init))));
      first [ reflexivity | discriminate ].
  - destruct (Hfirst eq_refl) as (rest & Htrace & _).
    exists rest. exact Htrace.
Defined.

(** A save on a runner where none of the paths exists. *)
Lemma save_nothing_resolved_witness :
  fst (saveCache Example.linux_no_paths (Some ["./dist"]) "build-123" None
         None None init) = Throw no_path_error
  /\ fst (saveCacheSync Example.linux_no_paths (Some ["./dist"]) "build-123"
            init) = Throw no_path_error.
Proof.
  exact (proj1 (save_nothing_resolved Example.linux_no_paths
                  (Some ["./dist"]) "build-123" None None None
                  eq_refl eq_refl)).
Defined.

(** An error of the HTTP client that is named [ValidationError] is thrown
    again by the restore and by the sync save. *)
Lemma classification_by_name_witness :
  JS.err_class Example.foreign_validation_error
    = JS.ClsForeign "HttpClientError"
  /\ fst (restoreCache Example.linux_foreign (Some ["./dist"]) "K2" None None
            None None init) = Throw Example.foreign_validation_error
  /\ fst (saveCacheSync Example.linux_foreign (Some ["./dist"]) "build-123"
            init) = Throw Example.foreign_validation_error.
Proof.
  pose proof (classification_by_name Example.linux_foreign (Some ["./dist"])
                "K2" None None None None "build-123" None ["./dist"]
                "/tmp/cache") as (Hrestore & _ & Hsave).
  split; [reflexivity|]. split.
  - eapply (Hrestore eq_refl Example.foreign_validation_error).
    + vm_compute. reflexivity.
    + reflexivity.
  - destruct (Hsave eq_refl eq_refl ltac:(discriminate)) as (_ & Hsync).
    apply (proj1 (Hsync Example.foreign_validation_error
                    (snd (saveCacheSync_try Example.linux_foreign ["./dist"]
                            "build-123"
                            (saveSync_entry ["./dist"] ["./dist"])))
                    eq_refl)).
    reflexivity.
Defined.

(** ** Concrete runs of the further properties *)

(** A path with no backslash is left as it is. *)
Lemma toTarPath_slashes_witness :
  toTarPath "D:/a/repo/dist" = "D:/a/repo/dist".
Proof.
  apply (proj1 (proj2 (proj2 (toTarPath_slashes "D:/a/repo/dist")))).
  vm_compute. intuition discriminate.
Defined.

(** A sync restore without paths is rejected before any lookup. *)
Lemma restoreCacheSync_validation_witness :
  exists msg,
    fst (restoreCacheSync Scenario.linux None "build-1" None init)
    = Throw (ValidationError msg).
Proof.
  destruct (proj1 (restoreCacheSync_validation Scenario.linux None "build-1"
                     None) (or_introl eq_refl)) as (msg & Hthrow & _).
  exists msg. exact Hthrow.
Defined.

(** A save under a key with a comma is rejected. *)
Lemma save_validation_witness :
  exists msg,
    fst (saveCache Scenario.linux (Some ["./dist"]) "build,1" None None None
           init) = Throw (ValidationError msg).
Proof.
  destruct (proj1 (proj1 (save_validation Scenario.linux (Some ["./dist"])
                            "build,1" None None None)))
    as (msg & Hthrow & _).
  - right; right; right. vm_compute. tauto.
  - exists msg. exact Hthrow.
Defined.

(** The lookup of a sync restore is no archive-mode call. *)
Lemma sync_mode_never_touches_archive_witness :
  is_archive_call (EvGetCacheEntrySync "build-1" ["./dist"]) = false.
Proof.
  apply (proj1 (sync_mode_never_touches_archive Scenario.linux
                  (Some ["./dist"]) "build-1" None "build-1")).
  vm_compute. tauto.
Defined.

(** A full sync restore of the stored key. *)
Lemma restoreCacheSync_outcomes_witness :
  fst (restoreCacheSync Scenario.linux (Some ["./dist"]) "build-1" None init)
  = Normal (Some "build-1").
Proof.
  destruct (restoreCacheSync_outcomes Scenario.linux (Some ["./dist"])
              "build-1" None eq_refl) as (_ & _ & Hhit).
  destruct (Hhit Scenario.stored_entry "https://cache.example/build-1"
              eq_refl eq_refl ltac:(discriminate)) as (_ & Hfull).
  destruct (Hfull eq_refl) as (_ & Hdone & _).
  exact (Hdone eq_refl).
Defined.


(** A save that returns 1 has uploaded. *)
Lemma save_returns_one_or_sentinel_witness :
  backend_saveCacheSync Scenario.linux "build-1" ["./dist"] = Normal tt.
Proof.
  destruct (proj2 (save_returns_one_or_sentinel Scenario.linux
                     (Some ["./dist"]) "build-1" None None None 1%Z)
              eq_refl) as [H|(_ & _ & H)].
  - discriminate H.
  - exact H.
Defined.

(** A failing path resolver and a full disk both fail the save. *)
Lemma save_prelude_errors_propagate_witness :
  fst (saveCacheSync Scenario.linux_glob_fails (Some ["./dist"]) "build-1"
         init) = Throw Scenario.disk_full
  /\ fst (saveCache Scenario.linux_disk_full (Some ["./dist"]) "build-1" None
            None None init) = Throw Scenario.disk_full.
Proof.
  split.
  - apply (proj1 (save_prelude_errors_propagate Scenario.linux_glob_fails
                    (Some ["./dist"]) "build-1" None None None
                    Scenario.disk_full eq_refl) eq_refl).
  - apply (proj2 (save_prelude_errors_propagate Scenario.linux_disk_full
                    (Some ["./dist"]) "build-1" None None None
                    Scenario.disk_full eq_refl)
             ["./dist"] eq_refl ltac:(discriminate) eq_refl).
Defined.

(** On a full disk the restore still issues its one deletion. *)
Lemma restoreCache_unlinks_once_witness :
  exists before p after,
    trace (snd (restoreCache Scenario.linux_disk_full (Some ["./dist"])
                  "build-1" None None None None init))
    = (before ++ EvUnlinkFile p :: after)%list
    /\ (forall q, ~ In (EvUnlinkFile q) before).
Proof.
  destruct (restoreCache_unlinks_once Scenario.linux_disk_full
              (Some ["./dist"]) "build-1" None None None None eq_refl)
    as (before & p & after & Htrace & Hnone & _).
  exists before, p, after. split; assumption.
Defined.

(** A restore with [lz4] as custom program, on Linux. *)
Lemma custom_program_posix_witness :
  In (EvExecSync
        "tar -xf /tmp/c/cache.tzst -P -C /home/runner --use-compress-program=lz4"
        false)
     (trace (snd (restoreCache Scenario.linux (Some ["./dist"]) "build-1"
                    None None None (Some "lz4") init))).
Proof.
  apply (proj1 (proj2 (custom_program_posix Scenario.linux (Some ["./dist"])
                         "build-1" None None None "build-1" None "lz4"
                         ltac:(discriminate) ltac:(discriminate))
                  ltac:(discriminate))
           "/tmp/c/cache.tzst" 2048%Z).
  - vm_compute. tauto.
  - reflexivity.
Defined.

(** A save with [zstd] as custom program, on Windows: the command names
    [lz4.exe]. *)
Lemma custom_program_windows_witness :
  exists command,
    In (EvExecSync command true)
       (trace (snd (saveCache Scenario.windows (Some ["dist\out"]) "build-1"
                      None None (Some "zstd") init)))
    /\ command
       = quoted "C:\Windows\System32\tar.exe"
           ++ " --posix --use-compress-program=" ++ quoted "lz4.exe"
           ++ " -cf " ++ quoted "C:/tmp/cache.tzst"
           ++ " --exclude " ++ quoted "C:/tmp/cache.tzst"
           ++ " -P -C " ++ quoted "D:/a/repo"
           ++ " " ++ quoted "dist/out".
Proof.
  eexists. split.
  - apply (proj2 (custom_program_windows Scenario.windows (Some ["dist\out"])
                    "build-1" None None None "build-1" None "zstd"
                    "C:\Windows\System32\tar.exe"
                    ltac:(discriminate) ltac:(discriminate) eq_refl eq_refl)
             ["dist\out"] "C:\tmp" eq_refl eq_refl ltac:(discriminate)
             eq_refl).
  - reflexivity.
Defined.

(** A debugging restore with the empty identifier lists the archive. *)
Lemma listTar_only_when_debugging_witness :
  In (EvListTar "/tmp/c/cache.tzst" "zstd")
     (trace (snd (restoreCache Scenario.linux_debug (Some ["./dist"])
                    "build-1" None None None (Some "") init)))
  /\ isDebug Scenario.linux_debug = true.
Proof.
  assert (Hin : In (EvListTar "/tmp/c/cache.tzst" "zstd")
                   (trace (snd (restoreCache Scenario.linux_debug
                                  (Some ["./dist"]) "build-1" None None None
                                  (Some "") init)))).
  { vm_compute. tauto. }
  split; [exact Hin|].
  exact (proj1 (proj1 (listTar_only_when_debugging Scenario.linux_debug
                         (Some ["./dist"]) "build-1" None None None (Some "")
                         "build-1" None "/tmp/c/cache.tzst" "zstd") Hin)).
Defined.

(** The download of a restore on Linux receives the stored location. *)
Lemma restoreCache_downloads_before_extracting_witness :
  exists e tempDirectory,
    archiveLocation e = Some "https://cache.example/build-1"
    /\ createTempDirectory Scenario.linux = Normal tempDirectory
    /\ "/tmp/c/cache.tzst"
       = path_join Scenario.linux tempDirectory
           (getCacheFileName Scenario.linux
              (getCompressionMethod Scenario.linux "none")).
Proof.
  destruct (proj1 (restoreCache_downloads_before_extracting Scenario.linux
                     (Some ["./dist"]) "build-1" None None None None)
              "https://cache.example/build-1" "/tmp/c/cache.tzst" None)
    as (_ & _ & e & dir & _ & Hloc & _ & Htmp & Hap).
  - vm_compute. tauto.
  - exists e, dir. repeat split; assumption.
Defined.

(** The second key of the list is the first one with a comma. *)
Lemma restoreCache_reports_first_failure_witness :
  fst (restoreCache Scenario.linux (Some ["./dist"]) "build-1"
         (Some ["build,2"; "build,3"]) None None None init)
  = Throw (ValidationError
      "Key Validation Error: build,2 cannot contain commas.").
Proof.
  apply (proj2 (proj2 (restoreCache_reports_first_failure Scenario.linux
                         (Some ["./dist"]) "build-1"
                         (Some ["build,2"; "build,3"]) None None None))
           eq_refl ltac:(vm_compute; lia)
           ["build-1"] "build,2" ["build,3"] eq_refl eq_refl eq_refl).
Defined.
